(** * The model lifecycle manager of IOPaint ([iopaint/model_manager.py])

    A shallow embedding of [ModelManager]: the catalog of model descriptors,
    the backend factory [init_model], the hot swap [switch] with its
    rollback, and the three reconciliation steps run before every inference
    call.  Python's mutable object and its exceptions are rendered by a state
    and error monad over the manager and a log of the calls made on the
    external collaborators (backend classes, diffusers pipelines, torch). *)

From stdpp Require Import gmap strings list fin_maps.
From Stdlib Require Import QArith.

Local Close Scope Q_scope.

Local Open Scope string_scope.
Local Open Scope list_scope.

(** ** Descriptors, requests, pipelines, backends *)

(** [iopaint.schema.ModelType].  The manager names the four diffusers
    members; the two others stand for the remaining members of the enum. *)
Inductive ModelType :=
| INPAINT
| DIFFUSERS_SD
| DIFFUSERS_SD_INPAINT
| DIFFUSERS_SDXL
| DIFFUSERS_SDXL_INPAINT
| DIFFUSERS_OTHER.

Global Instance ModelType_eq_dec : EqDecision ModelType.
Proof. solve_decision. Defined.

(** [str(torch.device)], the only view of a device the manager takes. *)
Definition Device := string.

Module ModelInfo.
(** [iopaint.schema.ModelInfo], the attributes the manager reads. *)
Record t := mk {
  name : string;
  model_type : ModelType;
  support_controlnet : bool;
  controlnets : list string;
  support_freeu : bool;
  support_lcm_lora : bool
}.
End ModelInfo.

Module FreeUConfig.
Record t := mk { s1 : Q; s2 : Q; b1 : Q; b2 : Q }.
End FreeUConfig.

Module InpaintRequest.
(** [iopaint.schema.InpaintRequest], the fields reconciliation consumes. *)
Record t := mk {
  enable_controlnet : bool;
  controlnet_method : option string;
  sd_freeu : bool;
  sd_freeu_config : FreeUConfig.t;
  sd_lcm_lora : bool
}.
End InpaintRequest.

(** A handle on one loaded sub-model (vae, text encoder, unet). *)
Definition Component := N.

(** Python exceptions the manager raises or lets through. *)
Inductive Exn :=
| NotImplementedError (model_name : string)
| KeyError (key : string)
| IndexError
| AttributeError (attr : string)
| ExternalError (code : N).

Module Pipeline.
(** The diffusers pipeline a backend wraps ([self.model.model]). *)
Record t := mk {
  vae : Component;
  text_encoder : Component;
  unet : Component;
  text_encoder_2 : option Component;
  freeu : option FreeUConfig.t;
  adapters : list string;
  lora_enabled : bool
}.

(** Modelled from the spec: the tuning and adapter methods of the pipeline
    are not part of the manager's source.  Tuning keeps the four scalars
    last applied, and [None] is the untuned baseline; the adapter is
    unloaded while [adapters] is empty, and otherwise loaded and enabled
    or disabled as [lora_enabled] says. *)
Definition enable_freeu (c : FreeUConfig.t) (p : t) : t :=
  mk (vae p) (text_encoder p) (unet p) (text_encoder_2 p)
     (Some c) (adapters p) (lora_enabled p).

Definition disable_freeu (p : t) : t :=
  mk (vae p) (text_encoder p) (unet p) (text_encoder_2 p)
     None (adapters p) (lora_enabled p).

Definition get_list_adapters (p : t) : list string := adapters p.

(** Modelled from the spec: loading fetches the weights or reads them from
    disk, and can fail.  [failure] is the exception this load raises, if
    any (the manager's source does not decide it; see [load_lora_raises] of
    the collaborators).  A load that raises leaves the pipeline as it was; a
    load that returns has added the adapter, enabled. *)
Definition load_lora_weights (failure : option Exn) (lora_id : string) (p : t) : Exn + t :=
  match failure with
  | Some e => inl e
  | None => inr (mk (vae p) (text_encoder p) (unet p) (text_encoder_2 p)
                    (freeu p) (adapters p ++ [lora_id]) true)
  end.

Definition enable_lora (p : t) : t :=
  mk (vae p) (text_encoder p) (unet p) (text_encoder_2 p)
     (freeu p) (adapters p) true.

Definition disable_lora (p : t) : t :=
  mk (vae p) (text_encoder p) (unet p) (text_encoder_2 p)
     (freeu p) (adapters p) false.
End Pipeline.

Module Backend.
(** One loaded backend object ([self.model]): the attributes the manager
    reads from it. *)
Record t := mk {
  device : Device;
  controlnet_method : option string;
  model : Pipeline.t;
  lcm_lora_id : string
}.

Definition set_model (p : Pipeline.t) (b : t) : t :=
  mk (device b) (controlnet_method b) p (lcm_lora_id b).

(** Modelled from the spec: the backend's cheap method switch lives in
    [iopaint.model]; it records the method now in use and rebuilds
    nothing. *)
Definition switch_controlnet_method (new_method : option string) (b : t) : t :=
  mk (device b) new_method (model b) (lcm_lora_id b).
End Backend.

(** The classes [init_model] chooses from: [ControlNet], an entry of the
    registry [iopaint.model.models], [SD] and [SDXL]. *)
Inductive BackendClass :=
| ControlNet
| Registered (cls : string)
| SD
| SDXL.

(** The options bag [**kwargs] of the constructor. *)
Record Kwargs := mkKwargs {
  kw_enable_controlnet : option bool;
  kw_controlnet_method : option string;
  kw_other : list (string * string)
}.

(** [pipe_components] of line 143: sub-models handed from the old backend to
    the new one. *)
Record PipeComponents := mkPipeComponents {
  pc_vae : Component;
  pc_text_encoder : Component;
  pc_unet : Component;
  pc_text_encoder_2 : option Component
}.

(** The keyword arguments a backend class is called with (lines 45-50). *)
Record CtorKwargs := mkCtorKwargs {
  ck_kwargs : Kwargs;
  ck_pipe_components : option PipeComponents;
  ck_model_info : ModelInfo.t;
  ck_enable_controlnet : bool;
  ck_controlnet_method : option string
}.

(** Calls made on the collaborators, in the order they are made. *)
Inductive Event :=
| EvDel
| EvTorchGc
| EvConstruct (cls : BackendClass) (dev : Device) (kw : CtorKwargs)
| EvSwitchMethod (method : option string)
| EvEnableFreeu (c : FreeUConfig.t)
| EvDisableFreeu
| EvGetListAdapters
| EvLoadLora (lora_id : string) (local_files_only : bool)
| EvEnableLora
| EvDisableLora
| EvForward (config : InpaintRequest.t).

Definition is_load (ev : Event) : bool :=
  match ev with
  | EvLoadLora _ _ => true
  | _ => false
  end.

(** The number of loads attempted in a log. *)
Definition loads (log : list Event) : nat :=
  length (filter (λ ev, is_load ev) log).

(** ** The external collaborators

    What the manager imports and does not define.  The outcome of a backend
    constructor and of a forward pass may depend on everything that happened
    before, hence on the log. *)
Record External := mkExternal {
  ndarray : Type;
  astype_uint8 : ndarray → ndarray;
  scan_models : list ModelInfo.t;
  models : gmap string string;
  switch_mps_device : string → Device → Device;
  is_local_files_only : bool;
  construct : list Event → BackendClass → Device → CtorKwargs → Exn + Backend.t;
  forward : list Event → Backend.t → ndarray → ndarray → InpaintRequest.t → Exn + ndarray;
  (** Whether [load_lora_weights(lora_id, local_files_only=...)] raises, and
      what.  The weights are fetched or read from disk, so a load can fail
      and a later attempt need not; the outcome may depend on the number of
      loads attempted before. *)
  load_lora_raises : nat → string → bool → option Exn
}.

(** ** The manager object *)

Record ModelManager := mkModelManager {
  name : string;
  device : Device;
  kwargs : Kwargs;
  available_models : gmap string ModelInfo.t;
  enable_controlnet : bool;
  controlnet_method : option string;
  (** [None] while the attribute [model] is deleted (line 109). *)
  model : option Backend.t
}.

Definition set_name (n : string) (self : ModelManager) : ModelManager :=
  mkModelManager n (device self) (kwargs self) (available_models self)
                 (enable_controlnet self) (controlnet_method self) (model self).

Definition set_available_models (c : gmap string ModelInfo.t) (self : ModelManager) : ModelManager :=
  mkModelManager (name self) (device self) (kwargs self) c
                 (enable_controlnet self) (controlnet_method self) (model self).

Definition set_enable_controlnet (b : bool) (self : ModelManager) : ModelManager :=
  mkModelManager (name self) (device self) (kwargs self) (available_models self)
                 b (controlnet_method self) (model self).

Definition set_controlnet_method (m : option string) (self : ModelManager) : ModelManager :=
  mkModelManager (name self) (device self) (kwargs self) (available_models self)
                 (enable_controlnet self) m (model self).

Definition set_model (b : option Backend.t) (self : ModelManager) : ModelManager :=
  mkModelManager (name self) (device self) (kwargs self) (available_models self)
                 (enable_controlnet self) (controlnet_method self) b.

(** ** State and exceptions *)

Inductive Res (A : Type) :=
| Ok (a : A)
| Raise (e : Exn).
Arguments Ok {A} a.
Arguments Raise {A} e.

Definition St : Type := ModelManager * list Event.

Definition M (A : Type) : Type := St → Res A * St.

Global Instance M_ret : MRet M := λ A a s, (Ok a, s).

Global Instance M_bind : MBind M := λ A B k m s,
  match m s with
  | (Ok a, s') => k a s'
  | (Raise e, s') => (Raise e, s')
  end.

Definition raise {A} (e : Exn) : M A := λ s, (Raise e, s).

(** [try: body except Exception as e: handler e]; the state reached when the
    exception was raised is the one the handler starts from. *)
Definition try_except {A} (body : M A) (handler : Exn → M A) : M A := λ s,
  match body s with
  | (Ok a, s') => (Ok a, s')
  | (Raise e, s') => handler e s'
  end.

Definition get_self : M ModelManager := λ s, (Ok s.1, s).
Definition get_log : M (list Event) := λ s, (Ok s.2, s).
Definition update (f : ModelManager → ModelManager) : M unit := λ s, (Ok tt, (f s.1, s.2)).
Definition emit (ev : Event) : M unit := λ s, (Ok tt, (s.1, s.2 ++ [ev])).

(** Python truthiness of an optional string. *)
Definition truthy (o : option string) : bool :=
  match o with
  | None => false
  | Some s => negb (String.eqb s "")
  end.

(** [x not in l] for an optional string and a list of strings. *)
Definition not_in (o : option string) (l : list string) : bool :=
  match o with
  | None => true
  | Some s => negb (bool_decide (s ∈ l))
  end.

(** [l[0]]. *)
Definition index0 (l : list string) : M string :=
  match l with
  | [] => raise IndexError
  | x :: _ => mret x
  end.

(** [kwargs.get("enable_controlnet", False)]. *)
Definition get_enable_controlnet (kw : Kwargs) : bool :=
  default false (kw_enable_controlnet kw).

(** [{it.name: it for it in l}]: a later descriptor replaces an earlier one
    of the same name. *)
Definition dict_by_name (l : list ModelInfo.t) : gmap string ModelInfo.t :=
  foldl (λ d it, <[ModelInfo.name it := it]> d) ∅ l.

Section Manager.
Context (E : External).

(** [self.available_models[key]]. *)
Definition lookup_model (key : string) : M ModelInfo.t :=
  self ← get_self;
  match available_models self !! key with
  | Some info => mret info
  | None => raise (KeyError key)
  end.

(** [self.model]. *)
Definition get_model : M Backend.t :=
  self ← get_self;
  match model self with
  | Some b => mret b
  | None => raise (AttributeError "model")
  end.

(** [cls(device, **kwargs)]. *)
Definition call_class (cls : BackendClass) (dev : Device) (kw : CtorKwargs) : M Backend.t :=
  log ← get_log;
  emit (EvConstruct cls dev kw);;
  match construct E log cls dev kw with
  | inl e => raise e
  | inr b => mret b
  end.

(** Lines 37-69. *)
Definition init_model (name : string) (dev : Device) (pipe_components : option PipeComponents)
    (kwargs : Kwargs) : M Backend.t :=
  self ← get_self;
  if bool_decide (name ∉ dom (available_models self)) then
    raise (NotImplementedError name)
  else
    model_info ← lookup_model name;
    let kwargs := mkCtorKwargs kwargs pipe_components model_info
                               (enable_controlnet self) (controlnet_method self) in
    if ModelInfo.support_controlnet model_info && enable_controlnet self then
      call_class ControlNet dev kwargs
    else if bool_decide (ModelInfo.name model_info ∈ dom (models E)) then
      match models E !! name with
      | Some cls => call_class (Registered cls) dev kwargs
      | None => raise (KeyError name)
      end
    else if bool_decide (ModelInfo.model_type model_info ∈ [DIFFUSERS_SD_INPAINT; DIFFUSERS_SD]) then
      call_class SD dev kwargs
    else if bool_decide (ModelInfo.model_type model_info ∈ [DIFFUSERS_SDXL_INPAINT; DIFFUSERS_SDXL]) then
      call_class SDXL dev kwargs
    else
      raise (NotImplementedError name).

(** Lines 88-91. *)
Definition do_scan_models : M (list ModelInfo.t) :=
  let available_models := scan_models E in
  update (set_available_models (dict_by_name available_models));;
  mret available_models.

(** Lines 15-31.  The object starts with the attributes of lines 16-19;
    those set later are not read before they are set. *)
Definition __init__ (name : string) (dev : Device) (kwargs : Kwargs)
    (log : list Event) : Res ModelManager * list Event :=
  let self0 := mkModelManager name dev kwargs ∅ false None None in
  let body : M unit :=
    do_scan_models;;
    update (set_enable_controlnet (get_enable_controlnet kwargs));;
    self ← get_self;
    controlnet_method ←
      match kw_controlnet_method kwargs, available_models self !! name with
      | None, Some info =>
          if ModelInfo.support_controlnet info
          then m ← index0 (ModelInfo.controlnets info); mret (Some m)
          else mret None
      | o, _ => mret o
      end;
    update (set_controlnet_method controlnet_method);;
    b ← init_model name dev None kwargs;
    update (set_model (Some b)) in
  match body (self0, log) with
  | (Ok _, (self, log')) => (Ok self, log')
  | (Raise e, (_, log')) => (Raise e, log')
  end.

(** Lines 93-122. *)
Definition switch (new_name : string) : M unit :=
  self ← get_self;
  if bool_decide (new_name = name self) then mret tt else
  let old_name := name self in
  let old_controlnet_method := controlnet_method self in
  update (set_name new_name);;
  new_info ← lookup_model new_name;
  (if ModelInfo.support_controlnet new_info
      && not_in (controlnet_method self) (ModelInfo.controlnets new_info)
   then
     first ← index0 (ModelInfo.controlnets new_info);
     update (set_controlnet_method (Some first))
   else mret tt);;
  try_except
    (_ ← get_model;
     update (set_model None);;
     emit EvDel;;
     emit EvTorchGc;;
     self ← get_self;
     b ← init_model new_name (switch_mps_device E new_name (device self)) None (kwargs self);
     update (set_model (Some b)))
    (λ e,
     update (set_name old_name);;
     update (set_controlnet_method old_controlnet_method);;
     self ← get_self;
     b ← init_model old_name (switch_mps_device E old_name (device self)) None (kwargs self);
     update (set_model (Some b));;
     raise e).

(** [self.model.model.<method>(...)]: the pipeline is changed in place. *)
Definition on_pipeline (f : Pipeline.t → Pipeline.t) : M unit :=
  b ← get_model;
  update (set_model (Some (Backend.set_model (f (Backend.model b)) b))).

(** The same for a pipeline method that may raise: the exception comes out
    of the manager's method, which catches nothing there. *)
Definition try_on_pipeline (f : Pipeline.t → Exn + Pipeline.t) : M unit :=
  b ← get_model;
  match f (Backend.model b) with
  | inl e => raise e
  | inr p => update (set_model (Some (Backend.set_model p b)))
  end.

(** Lines 124-160. *)
Definition switch_controlnet_method (config : InpaintRequest.t) : M unit :=
  self ← get_self;
  info ← lookup_model (name self);
  if negb (ModelInfo.support_controlnet info) then mret tt else
  if enable_controlnet self
     && truthy (InpaintRequest.controlnet_method config)
     && bool_decide (controlnet_method self ≠ InpaintRequest.controlnet_method config)
  then
    update (set_controlnet_method (InpaintRequest.controlnet_method config));;
    b ← get_model;
    emit (EvSwitchMethod (InpaintRequest.controlnet_method config));;
    update (set_model (Some (Backend.switch_controlnet_method
                               (InpaintRequest.controlnet_method config) b)))
  else if bool_decide (enable_controlnet self ≠ InpaintRequest.enable_controlnet config) then
    update (set_enable_controlnet (InpaintRequest.enable_controlnet config));;
    update (set_controlnet_method (InpaintRequest.controlnet_method config));;
    b ← get_model;
    let pipe_components :=
      mkPipeComponents (Pipeline.vae (Backend.model b))
                       (Pipeline.text_encoder (Backend.model b))
                       (Pipeline.unet (Backend.model b))
                       (Pipeline.text_encoder_2 (Backend.model b)) in
    self ← get_self;
    b' ← init_model (name self) (switch_mps_device E (name self) (device self))
                    (Some pipe_components) (kwargs self);
    update (set_model (Some b'))
  else mret tt.

(** Lines 162-176. *)
Definition enable_disable_freeu (config : InpaintRequest.t) : M unit :=
  b ← get_model;
  if String.eqb (Backend.device b) "mps" then mret tt else
  self ← get_self;
  info ← lookup_model (name self);
  if ModelInfo.support_freeu info then
    if InpaintRequest.sd_freeu config then
      let freeu_config := InpaintRequest.sd_freeu_config config in
      emit (EvEnableFreeu freeu_config);;
      on_pipeline (Pipeline.enable_freeu freeu_config)
    else
      emit EvDisableFreeu;;
      on_pipeline Pipeline.disable_freeu
  else mret tt.

(** Lines 178-196. *)
Definition enable_disable_lcm_lora (config : InpaintRequest.t) : M unit :=
  self ← get_self;
  info ← lookup_model (name self);
  if ModelInfo.support_lcm_lora info then
    b ← get_model;
    emit EvGetListAdapters;;
    let lcm_lora_loaded :=
      negb (bool_decide (Pipeline.get_list_adapters (Backend.model b) = [])) in
    if InpaintRequest.sd_lcm_lora config then
      if negb lcm_lora_loaded then
        log ← get_log;
        emit (EvLoadLora (Backend.lcm_lora_id b) (is_local_files_only E));;
        try_on_pipeline
          (Pipeline.load_lora_weights
             (load_lora_raises E (loads log) (Backend.lcm_lora_id b)
                               (is_local_files_only E))
             (Backend.lcm_lora_id b))
      else
        emit EvEnableLora;;
        on_pipeline Pipeline.enable_lora
    else
      if lcm_lora_loaded then
        emit EvDisableLora;;
        on_pipeline Pipeline.disable_lora
      else mret tt
  else mret tt.

(** Lines 71-86. *)
Definition __call__ (image mask : ndarray E) (config : InpaintRequest.t) : M (ndarray E) :=
  switch_controlnet_method config;;
  enable_disable_freeu config;;
  enable_disable_lcm_lora config;;
  b ← get_model;
  log ← get_log;
  emit (EvForward config);;
  match forward E log b image mask config with
  | inl e => raise e
  | inr out => mret (astype_uint8 E out)
  end.

End Manager.

(** ** A sample deployment

    A catalog with a plain diffusion model, an SDXL model with two
    ControlNet methods, a registered eraser and a model whose weights cannot
    be loaded; used to run the manager on concrete inputs. *)
Module Sample.
Definition sd_v1 : ModelInfo.t :=
  ModelInfo.mk "sd-v1" DIFFUSERS_SD false [] true true.
Definition sdxl : ModelInfo.t :=
  ModelInfo.mk "sdxl" DIFFUSERS_SDXL true ["canny"; "depth"] true true.
Definition lama : ModelInfo.t :=
  ModelInfo.mk "lama" INPAINT false [] false false.
Definition broken : ModelInfo.t :=
  ModelInfo.mk "broken" DIFFUSERS_SD_INPAINT false [] true true.
Definition other : ModelInfo.t :=
  ModelInfo.mk "other" DIFFUSERS_OTHER false [] false false.

Definition fresh_pipeline (pc : option PipeComponents) : Pipeline.t :=
  match pc with
  | Some c => Pipeline.mk (pc_vae c) (pc_text_encoder c) (pc_unet c)
                          (pc_text_encoder_2 c) None [] false
  | None => Pipeline.mk 1%N 2%N 3%N None None [] false
  end.

Definition build (log : list Event) (cls : BackendClass) (dev : Device)
    (kw : CtorKwargs) : Exn + Backend.t :=
  if String.eqb (ModelInfo.name (ck_model_info kw)) "broken" then inl (ExternalError 2%N)
  else inr (Backend.mk dev (ck_controlnet_method kw)
                       (fresh_pipeline (ck_pipe_components kw)) "lcm-lora").

Definition env : External :=
  mkExternal (list Z) (map (λ x, x mod 256)%Z)
             [sd_v1; sdxl; lama; broken; other]
             {["lama" := "LaMa"]}
             (λ _ dev, dev)
             true
             build
             (λ _ _ image _ _, inr image)
             (λ _ _ _, None).

Definition no_options : Kwargs := mkKwargs None None [].

Definition request (enable_controlnet : bool) (method : option string)
    (freeu lcm : bool) : InpaintRequest.t :=
  InpaintRequest.mk enable_controlnet method freeu
                    (FreeUConfig.mk (9 # 10)%Q (2 # 10)%Q (12 # 10)%Q (14 # 10)%Q) lcm.

Definition controlnet_on : Kwargs := mkKwargs (Some true) None [].

(** The manager right after [ModelManager(name, "cpu", **kwargs)]. *)
Definition start (name : string) (kwargs : Kwargs) : St :=
  match __init__ env name "cpu" kwargs [] with
  | (Ok self, log) => (self, log)
  | (Raise _, log) => (mkModelManager "" "" kwargs ∅ false None None, log)
  end.

Definition at_sd_v1 : St := start "sd-v1" no_options.
Definition at_sdxl : St := start "sdxl" no_options.
Definition at_sdxl_controlnet : St := start "sdxl" controlnet_on.
End Sample.

(** ** Proof support *)

Ltac unfold_monad :=
  unfold on_pipeline, try_on_pipeline, lookup_model, get_model, index0, call_class in *;
  unfold mbind, M_bind, mret, M_ret, get_self, get_log, update, emit, raise,
    try_except in *.

Ltac red_monad := cbn beta iota zeta delta [fst snd] in *.
Ltac run := unfold_monad; red_monad.
Ltac branch := repeat (case_match; red_monad; simplify_eq/=; try done).

(** A descriptor that supports the auxiliary path lists a method; otherwise
    [controlnets[0]] raises. *)
Definition descriptor_wf (info : ModelInfo.t) : Prop :=
  ModelInfo.support_controlnet info = true → ModelInfo.controlnets info ≠ [].

(** The method [switch] goes on with after lines 101-106. *)
Definition method_on_switch (new_info : ModelInfo.t) (current : option string) : option string :=
  if ModelInfo.support_controlnet new_info
     && not_in current (ModelInfo.controlnets new_info)
  then head (ModelInfo.controlnets new_info)
  else current.

(** The dispatch order in the words of the specification: (a) the
    auxiliary-path-augmented variant when the descriptor supports the
    auxiliary path and the path is enabled; (b) else the specially
    registered implementation of the descriptor's name; (c) else the generic
    diffusion variant of the descriptor's model kind; [None] when no variant
    matches. *)
Definition factory_spec (registry : gmap string string) (aux_enabled : bool)
    (descriptor : ModelInfo.t) : option BackendClass :=
  if ModelInfo.support_controlnet descriptor && aux_enabled then Some ControlNet
  else
    match registry !! ModelInfo.name descriptor with
    | Some impl => Some (Registered impl)
    | None =>
        match ModelInfo.model_type descriptor with
        | DIFFUSERS_SD | DIFFUSERS_SD_INPAINT => Some SD
        | DIFFUSERS_SDXL | DIFFUSERS_SDXL_INPAINT => Some SDXL
        | _ => None
        end
    end.


(** The three kinds of reconciliation calls, and the forward pass. *)
Definition is_aux_event (ev : Event) : bool :=
  match ev with
  | EvConstruct _ _ _ | EvSwitchMethod _ => true
  | _ => false
  end.

Definition is_tuning_event (ev : Event) : bool :=
  match ev with
  | EvEnableFreeu _ | EvDisableFreeu => true
  | _ => false
  end.

Definition is_adapter_event (ev : Event) : bool :=
  match ev with
  | EvGetListAdapters | EvLoadLora _ _ | EvEnableLora | EvDisableLora => true
  | _ => false
  end.

Definition is_construct (ev : Event) : bool :=
  match ev with
  | EvConstruct _ _ _ => true
  | _ => false
  end.

(** What the manager knows of the model it serves: everything but the
    backend object. *)
Definition settings (m : ModelManager)
    : string * Device * Kwargs * gmap string ModelInfo.t * bool * option string :=
  (name m, device m, kwargs m, available_models m, enable_controlnet m, controlnet_method m).

(** The adapters loaded in the held backend's pipeline, and the identifier
    the backend loads them under. *)
Definition held_adapters (m : ModelManager) : option (list string * string) :=
  (λ b, (Pipeline.adapters (Backend.model b), Backend.lcm_lora_id b)) <$> model m.

(** The tuning in effect in the held backend's pipeline. *)
Definition held_freeu (m : ModelManager) : option (option FreeUConfig.t) :=
  (λ b, Pipeline.freeu (Backend.model b)) <$> model m.

(** A reconciliation step run once per request, each run starting from the
    state the previous one left, whether it returned or raised. *)
Definition run_steps (step : InpaintRequest.t → M unit)
    (configs : list InpaintRequest.t) (s : St) : St :=
  foldl (λ s config, (step config s).2) s configs.

(** The tuning a request asks for. *)
Definition requested_freeu (config : InpaintRequest.t) : option FreeUConfig.t :=
  if InpaintRequest.sd_freeu config
  then Some (InpaintRequest.sd_freeu_config config)
  else None.

(** The manager serves a model that supports tuning, on a backend whose
    device is not "mps". *)
Definition tunable (m : ModelManager) : Prop :=
  ∃ info b,
    available_models m !! name m = Some info
    ∧ ModelInfo.support_freeu info = true
    ∧ model m = Some b
    ∧ Backend.device b ≠ "mps".




(** Whether the pipeline of a backend has an adapter loaded. *)
Definition lcm_lora_loaded (b : Backend.t) : bool :=
  negb (bool_decide (Pipeline.get_list_adapters (Backend.model b) = [])).



(** The current auxiliary method, if set, is in the current descriptor's
    list of compatible methods. *)
Definition method_compatible (m : ModelManager) : bool :=
  match controlnet_method m with
  | None => true
  | Some method =>
      match available_models m !! name m with
      | Some info => bool_decide (method ∈ ModelInfo.controlnets info)
      | None => false
      end
  end.

(** The same, asked only of a current descriptor that supports the auxiliary
    path. *)
Definition method_compatible_if_supported (m : ModelManager) : bool :=
  match available_models m !! name m with
  | Some info =>
      if ModelInfo.support_controlnet info then
        match controlnet_method m with
        | None => true
        | Some method => bool_decide (method ∈ ModelInfo.controlnets info)
        end
      else true
  | None => true
  end.

(** The method a request names, if any, is one the current descriptor lists
    when it supports the auxiliary path. *)
Definition request_compatible (m : ModelManager) (config : InpaintRequest.t) : Prop :=
  ∀ info method,
    available_models m !! name m = Some info →
    ModelInfo.support_controlnet info = true →
    InpaintRequest.controlnet_method config = Some method →
    method ∈ ModelInfo.controlnets info.

(** The method pinned in the options, if any, is one the named descriptor
    lists when it supports the auxiliary path. *)
Definition pinned_compatible (catalog : gmap string ModelInfo.t) (name : string)
    (kw : Kwargs) : Prop :=
  ∀ info method,
    catalog !! name = Some info →
    ModelInfo.support_controlnet info = true →
    kw_controlnet_method kw = Some method →
    method ∈ ModelInfo.controlnets info.

Definition catalog_wf (catalog : gmap string ModelInfo.t) : Prop :=
  ∀ key info, catalog !! key = Some info → descriptor_wf info.

(** The adapters loaded in the held backend's pipeline and whether they are
    enabled. *)
Definition held_lora (m : ModelManager) : option (list string * bool) :=
  (λ b, (Pipeline.adapters (Backend.model b), Pipeline.lora_enabled (Backend.model b)))
    <$> model m.

(** The number of requests of a run that ask for the adapter. *)
Definition adapter_requests (configs : list InpaintRequest.t) : nat :=
  length (filter (λ config, InpaintRequest.sd_lcm_lora config) configs).

(** Whether one of the [n] loads attempted from load number [first] on
    returns. *)
Definition load_returns_within (E : External) (first n : nat) (lora_id : string)
    (local : bool) : bool :=
  existsb (λ k, match load_lora_raises E (first + k) lora_id local with
                | None => true
                | Some _ => false
                end) (seq 0 n).

(** The manager's ControlNet flag and method are those of the request. *)
Definition controlnet_settled (m : ModelManager) (config : InpaintRequest.t) : Prop :=
  enable_controlnet m = InpaintRequest.enable_controlnet config
  ∧ controlnet_method m = InpaintRequest.controlnet_method config.

(** ** A deployment at its limits

    The sample catalog with a descriptor scanned twice and one that supports
    ControlNet without listing a method, on a machine where only the first
    backend ever built fits in memory. *)
Module Edge.
Definition sd_v1_rescanned : ModelInfo.t :=
  ModelInfo.mk "sd-v1" DIFFUSERS_SD_INPAINT false [] true false.
Definition unlisted : ModelInfo.t :=
  ModelInfo.mk "unlisted" DIFFUSERS_SD true [] true true.

Definition scanned : list ModelInfo.t :=
  [Sample.sd_v1; Sample.sdxl; Sample.lama; unlisted; sd_v1_rescanned].

Definition build (log : list Event) (cls : BackendClass) (dev : Device)
    (kw : CtorKwargs) : Exn + Backend.t :=
  match log with
  | [] => Sample.build log cls dev kw
  | _ => inl (ExternalError 1%N)
  end.

Definition env : External :=
  mkExternal (list Z) (map (λ x, x mod 256)%Z)
             scanned
             {["lama" := "LaMa"]}
             (λ _ dev, dev)
             true
             build
             (λ _ _ image _ _, inr image)
             (λ _ _ _, None).

(** The manager right after [ModelManager("sdxl", "cpu")]. *)
Definition at_sdxl : St :=
  match __init__ env "sdxl" "cpu" Sample.no_options [] with
  | (Ok self, log) => (self, log)
  | (Raise _, log) => (mkModelManager "" "" Sample.no_options ∅ false None None, log)
  end.

(** The same manager after [switch("sd-v1")] failed and could not roll
    back. *)
Definition stranded : St := (switch env "sd-v1" at_sdxl).2.
End Edge.

(** The sample deployment when the first load of the adapter weights fails
    (the weights are not on disk yet, say) and later loads return. *)
Module Flaky.
Definition load_raises (attempt : nat) (lora_id : string) (local : bool) : option Exn :=
  match attempt with
  | O => Some (ExternalError 3%N)
  | S _ => None
  end.

Definition env : External :=
  mkExternal (list Z) (map (λ x, x mod 256)%Z)
             [Sample.sd_v1; Sample.sdxl; Sample.lama; Sample.broken; Sample.other]
             {["lama" := "LaMa"]}
             (λ _ dev, dev)
             true
             Sample.build
             (λ _ _ image _ _, inr image)
             load_raises.

(** The manager right after [ModelManager("sd-v1", "cpu")]. *)
Definition at_sd_v1 : St :=
  match __init__ env "sd-v1" "cpu" Sample.no_options [] with
  | (Ok self, log) => (self, log)
  | (Raise _, log) => (mkModelManager "" "" Sample.no_options ∅ false None None, log)
  end.
End Flaky.

Section Facts.
Context (E : External).

(** [init_model] reads the manager and never writes it. *)
Lemma init_model_self name dev pc kw s r s' :
  init_model E name dev pc kw s = (r, s') → s'.1 = s.1.
Proof.
  unfold init_model. run. destruct s as [m log]. red_monad.
  intros H. branch.
Qed.

(** C9: [switch] to the active name returns at once: no exception, no
    call on any collaborator (so no release and no rebuild), and the
    manager is left as it was, whatever its state. *)
Theorem switch_current_name_noop (m : ModelManager) (log : list Event) :
  switch E (name m) (m, log) = (Ok tt, (m, log)).
Proof.
  unfold switch. run. by rewrite bool_decide_eq_true_2.
Qed.

(** C2: for a name absent from the catalog, [switch] does not raise the
    unsupported-model error ([NotImplementedError]) and does not leave the
    manager as it was: the lookup of line 102 raises [KeyError] before the
    [try] block is entered, after line 99 has overwritten the name. *)
Theorem switch_unknown_name_KeyError (m : ModelManager) (log : list Event)
    (new_name : string) :
  new_name ≠ name m →
  available_models m !! new_name = None →
  switch E new_name (m, log) = (Raise (KeyError new_name), (set_name new_name m, log)).
Proof.
  intros Hne Hnone. unfold switch. run.
  rewrite bool_decide_eq_false_2 by done. red_monad.
  unfold set_name at 1. cbn. by rewrite Hnone.
Qed.

(** C1: fail-atomicity of [switch].  The manager holds a backend for its
    current model A; B is another catalog entry (one that lists a method
    if it supports the auxiliary path, so that the build is reached).  If
    the build of B raises [e] and the rebuild of A then returns [b_A],
    [switch] raises exactly [e], and the manager is the one it started
    from, name and method included, holding [b_A]. *)
Theorem switch_fail_atomic (m : ModelManager) (log : list Event) (B : string)
    (info_B : ModelInfo.t) (held : Backend.t) (e : Exn) (b_A : Backend.t)
    (log_B log_A : list Event) :
  B ≠ name m →
  available_models m !! B = Some info_B →
  descriptor_wf info_B →
  model m = Some held →
  let mid := set_model None
               (set_controlnet_method (method_on_switch info_B (controlnet_method m))
                  (set_name B m)) in
  init_model E B (switch_mps_device E B (device m)) None (kwargs m)
             (mid, (log ++ [EvDel]) ++ [EvTorchGc]) = (Raise e, (mid, log_B)) →
  init_model E (name m) (switch_mps_device E (name m) (device m)) None (kwargs m)
             (set_model None m, log_B) = (Ok b_A, (set_model None m, log_A)) →
  switch E B (m, log) = (Raise e, (set_model (Some b_A) m, log_A)).
Proof.
  destruct m as [A dev kw cat en meth mdl];
    unfold set_model, set_name, set_controlnet_method; cbn -[init_model] in *.
  intros Hne HB Hwf -> Hbuild Hrebuild. unfold switch. run.
  unfold set_model, set_name, set_controlnet_method.
  cbn -[init_model]. rewrite bool_decide_eq_false_2 by done.
  cbn -[init_model]. rewrite HB. cbn -[init_model].
  unfold method_on_switch, descriptor_wf in *.
  destruct (ModelInfo.support_controlnet info_B
            && not_in meth (ModelInfo.controlnets info_B)) eqn:Hc.
  - destruct (ModelInfo.controlnets info_B) as [|c cs] eqn:Hcs.
    { apply andb_prop in Hc as [Hs _]. by destruct (Hwf Hs). }
    cbn -[init_model] in *. rewrite Hbuild. cbn -[init_model]. by rewrite Hrebuild.
  - cbn -[init_model] in *. rewrite Hbuild. cbn -[init_model]. by rewrite Hrebuild.
Qed.

(** The catalog built by [scan_models] is keyed by descriptor name. *)
Lemma dict_by_name_key (l : list ModelInfo.t) (k : string) (info : ModelInfo.t) :
  dict_by_name l !! k = Some info → ModelInfo.name info = k.
Proof.
  unfold dict_by_name.
  assert (G : ∀ (d : gmap string ModelInfo.t),
    (∀ k i, d !! k = Some i → ModelInfo.name i = k) →
    ∀ k i, foldl (λ d it, <[ModelInfo.name it := it]> d) d l !! k = Some i →
           ModelInfo.name i = k).
  { induction l as [|it l IH]; intros d Hd k' i; cbn; [by apply Hd|].
    apply IH. intros k2 i2. rewrite lookup_insert.
    case_decide; [by intros [= <-]|by apply Hd]. }
  apply G. intros k' i Hk. by rewrite lookup_empty in Hk.
Qed.

(** What [init_model] does for a descriptor of the catalog stored under its
    own name: one constructor call on the class the dispatch order selects,
    or the unsupported-model error when it selects none. *)
Lemma init_model_constructs (m : ModelManager) (log : list Event) (name : string)
    (info : ModelInfo.t) (dev : Device) (pc : option PipeComponents) (kw : Kwargs) :
  available_models m !! name = Some info →
  ModelInfo.name info = name →
  init_model E name dev pc kw (m, log)
  = match factory_spec (models E) (enable_controlnet m) info with
    | Some cls =>
        let ckw := mkCtorKwargs kw pc info (enable_controlnet m) (controlnet_method m) in
        (match construct E log cls dev ckw with
         | inl e => Raise e
         | inr b => Ok b
         end, (m, log ++ [EvConstruct cls dev ckw]))
    | None => (Raise (NotImplementedError name), (m, log))
    end.
Proof.
  intros Hinfo Hname.
  assert (Hdom : bool_decide (name ∉ dom (available_models m)) = false).
  { apply bool_decide_eq_false_2. intros Hn. apply Hn, elem_of_dom. eauto. }
  unfold factory_spec, init_model. run. rewrite Hdom. red_monad. rewrite Hinfo. red_monad.
  destruct (ModelInfo.support_controlnet info && enable_controlnet m).
  { cbn [fst snd]. by destruct (construct E log ControlNet _ _). }
  rewrite Hname.
  destruct (models E !! name) as [cls|] eqn:Hreg.
  - rewrite bool_decide_eq_true_2 by (apply elem_of_dom; eauto).
    cbn [fst snd]. by destruct (construct E log (Registered cls) _ _).
  - rewrite bool_decide_eq_false_2 by (rewrite elem_of_dom, Hreg; by intros [? ?]).
    destruct (ModelInfo.model_type info); cbn; try done.
    all: repeat match goal with
           | |- context [bool_decide (?x ∈ ?l)] =>
               let v := eval vm_compute in (bool_decide (x ∈ l)) in
               change (bool_decide (x ∈ l)) with v
           end.
    all: cbn [fst snd]; by destruct (construct E log _ _ _).
Qed.

(** C7: the factory follows the dispatch order of the specification.  For
    a descriptor of the catalog, stored under its own name, [init_model]
    makes one call: the constructor of the class [factory_spec] selects
    (the ControlNet variant when the descriptor supports ControlNet and the
    flag is on, else the class registered under the descriptor's name, else
    the generic class of its model type), on the device and with the
    descriptor and the manager's current auxiliary settings among the
    keyword arguments, and it returns the backend that constructor returns
    or raises what it raises.  When [factory_spec] selects no class it
    raises the unsupported-model error and calls no constructor.  The class
    constructed is the selected one and no other, and the error is raised
    without a call only when none is selected.  The flag is the manager's
    [enable_controlnet], which construction takes from the options. *)
Theorem init_model_dispatch (m : ModelManager) (log : list Event) (name : string)
    (info : ModelInfo.t) (dev : Device) (pc : option PipeComponents) (kw : Kwargs) :
  available_models m !! name = Some info →
  ModelInfo.name info = name →
  let ckw := mkCtorKwargs kw pc info (enable_controlnet m) (controlnet_method m) in
  let selected := factory_spec (models E) (enable_controlnet m) info in
  init_model E name dev pc kw (m, log)
  = match selected with
    | Some cls =>
        (match construct E log cls dev ckw with
         | inl e => Raise e
         | inr b => Ok b
         end, (m, log ++ [EvConstruct cls dev ckw]))
    | None => (Raise (NotImplementedError name), (m, log))
    end
  ∧ (∀ cls,
       selected = Some cls
       ↔ (init_model E name dev pc kw (m, log)).2.2 = log ++ [EvConstruct cls dev ckw])
  ∧ (selected = None
     ↔ init_model E name dev pc kw (m, log) = (Raise (NotImplementedError name), (m, log)))
  ∧ (selected = Some ControlNet
     ↔ ModelInfo.support_controlnet info = true ∧ enable_controlnet m = true).
Proof.
  intros Hinfo Hname ckw selected.
  pose proof (init_model_constructs m log name info dev pc kw Hinfo Hname) as Hrun.
  fold ckw selected in Hrun. cbn zeta in Hrun.
  split; [exact Hrun|]. rewrite Hrun. clear Hrun.
  split; [|split].
  - intros cls. destruct selected as [cls0|]; cbn [snd].
    + split; [by intros [= ->]|].
      intros Heq%app_inv_head. by simplify_eq.
    + split; [done|]. intros Heq.
      assert (length log = length (log ++ [EvConstruct cls dev ckw])) as Hlen
        by congruence.
      rewrite length_app in Hlen. cbn in Hlen. lia.
  - destruct selected as [cls0|]; [|done].
    split; [done|]. intros [= _ Heq].
    assert (length (log ++ [EvConstruct cls0 dev ckw]) = length log) as Hlen
      by congruence.
    rewrite length_app in Hlen. cbn in Hlen. lia.
  - subst selected. unfold factory_spec.
    destruct (ModelInfo.support_controlnet info), (enable_controlnet m); cbn.
    1: by split.
    all: split; [|by intros [? ?]].
    all: destruct (models E !! ModelInfo.name info); [done|].
    all: by destruct (ModelInfo.model_type info).
Qed.

(** C4: first-compatible-method defaulting.  A construction that pins no
    method, under a name whose descriptor supports the auxiliary path,
    yields a manager whose method is the first of the descriptor's
    compatible methods.  A switch that completes, to another catalog entry
    that supports the auxiliary path while the current method is not in
    its list, leaves the manager at that entry with the method reset to
    the first of its list. *)
Theorem first_compatible_method_default :
  (∀ name dev kw log m log' info,
     __init__ E name dev kw log = (Ok m, log') →
     kw_controlnet_method kw = None →
     dict_by_name (scan_models E) !! name = Some info →
     ModelInfo.support_controlnet info = true →
     ∃ first rest, ModelInfo.controlnets info = first :: rest
                   ∧ controlnet_method m = Some first)
  ∧ (∀ m log B info m' log',
     switch E B (m, log) = (Ok tt, (m', log')) →
     B ≠ name m →
     available_models m !! B = Some info →
     ModelInfo.support_controlnet info = true →
     not_in (controlnet_method m) (ModelInfo.controlnets info) = true →
     ∃ first rest, ModelInfo.controlnets info = first :: rest
                   ∧ name m' = B ∧ controlnet_method m' = Some first).
Proof.
  split.
  - intros name dev kw log m log' info Hrun Hpin Hinfo Hsup.
    unfold __init__, do_scan_models in Hrun. run.
    unfold set_available_models, set_enable_controlnet in Hrun.
    cbn -[init_model] in Hrun. rewrite Hpin, Hinfo, Hsup in Hrun.
    destruct (ModelInfo.controlnets info) as [|first rest]; [done|].
    exists first, rest. split; [done|]. red_monad.
    unfold set_controlnet_method in Hrun. cbn -[init_model] in Hrun.
    match type of Hrun with context [init_model ?a ?b ?c ?d ?e ?f] =>
      destruct (init_model a b c d e f) as [[b0|e0] [m1 log1]] eqn:Hi;
      apply init_model_self in Hi; cbn in Hi; subst m1 end.
    + cbn in Hrun. by simplify_eq.
    + by simplify_eq.
  - intros m log B info m' log' Hrun Hne Hinfo Hsup Hnot.
    destruct m as [A dev kw cat en meth mdl]. cbn in *.
    unfold switch in Hrun. run.
    unfold set_model, set_name, set_controlnet_method in Hrun.
    cbn -[init_model] in Hrun. rewrite bool_decide_eq_false_2 in Hrun by done.
    cbn -[init_model] in Hrun. rewrite Hinfo in Hrun. cbn -[init_model] in Hrun.
    rewrite Hsup, Hnot in Hrun. cbn -[init_model] in Hrun.
    destruct (ModelInfo.controlnets info) as [|first rest]; [done|].
    exists first, rest. split; [done|]. cbn -[init_model] in Hrun.
    destruct mdl as [held|]; cbn -[init_model] in Hrun.
    + match type of Hrun with context [init_model ?a ?b ?c ?d ?e ?f] =>
        destruct (init_model a b c d e f) as [[b0|e0] [m1 log1]] eqn:Hi;
        apply init_model_self in Hi; cbn in Hi; subst m1 end.
      * cbn in Hrun. by simplify_eq.
      * cbn -[init_model] in Hrun.
        match type of Hrun with context [init_model ?a ?b ?c ?d ?e ?f] =>
          destruct (init_model a b c d e f) as [[b1|e1] [m2 log2]] end;
        cbn in Hrun; by simplify_eq.
    + match type of Hrun with context [init_model ?a ?b ?c ?d ?e ?f] =>
        destruct (init_model a b c d e f) as [[b1|e1] [m2 log2]] end;
      cbn in Hrun; by simplify_eq.
Qed.

(** *** Frames of the reconciliation steps *)

Lemma enable_disable_freeu_frame config s r s' :
  enable_disable_freeu config s = (r, s') →
  settings s'.1 = settings s.1
  ∧ held_adapters s'.1 = held_adapters s.1
  ∧ ∃ evs, s'.2 = s.2 ++ evs ∧ Forall is_tuning_event evs.
Proof.
  destruct s as [[A dev kw cat en meth mdl] log].
  unfold enable_disable_freeu. run. unfold set_model. cbn.
  intros H. branch; (split; [done|split; [done|]]);
    first [ by exists []; rewrite app_nil_r
          | eexists [_]; split; [done|by repeat constructor] ].
Qed.

Lemma enable_disable_lcm_lora_frame config s r s' :
  enable_disable_lcm_lora E config s = (r, s') →
  settings s'.1 = settings s.1
  ∧ held_freeu s'.1 = held_freeu s.1
  ∧ ∃ evs, s'.2 = s.2 ++ evs ∧ Forall is_adapter_event evs.
Proof.
  destruct s as [[A dev kw cat en meth mdl] log].
  unfold enable_disable_lcm_lora. run.
  unfold set_model, Pipeline.load_lora_weights. cbn.
  intros H. branch; (split; [done|split; [done|]]);
    first [ by exists []; rewrite app_nil_r
          | eexists [_]; split; [done|by repeat constructor]
          | eexists [_; _]; split; [by rewrite <- app_assoc|by repeat constructor] ].
Qed.

Lemma init_model_frame name dev pc kw s r s' :
  init_model E name dev pc kw s = (r, s') →
  s'.1 = s.1 ∧ ∃ evs, s'.2 = s.2 ++ evs ∧ Forall is_construct evs.
Proof.
  intros H. split; [by eapply init_model_self|]. revert H.
  unfold init_model. run. destruct s as [m log]. red_monad.
  intros H. branch;
    first [ by exists []; rewrite app_nil_r
          | eexists [_]; split; [done|by repeat constructor] ].
Qed.

Lemma switch_controlnet_method_frame config s r s' :
  switch_controlnet_method E config s = (r, s') →
  name s'.1 = name s.1
  ∧ available_models s'.1 = available_models s.1
  ∧ (controlnet_method s'.1 = controlnet_method s.1
     ∨ controlnet_method s'.1 = InpaintRequest.controlnet_method config)
  ∧ ∃ evs, s'.2 = s.2 ++ evs ∧ Forall is_aux_event evs.
Proof.
  destruct s as [[A dev kw cat en meth mdl] log].
  unfold switch_controlnet_method. run.
  unfold set_model, set_controlnet_method, set_enable_controlnet. cbn -[init_model].
  intros H. branch;
    repeat (match goal with x : St |- _ => destruct x as [? ?] end);
    try (match goal with
         | Hi : init_model _ _ _ _ _ _ = _ |- _ =>
             apply init_model_frame in Hi as [Hs (evs & Hl & Hev)];
             cbn in Hs, Hl; subst
         end);
    cbn;
    (split; [done|split; [done|split; [by eauto|]]]);
    first [ by exists []; rewrite app_nil_r
          | eexists [_]; split; [done|by repeat constructor]
          | eexists; split; [done|];
            eapply Forall_impl; [done|]; by intros [] ].
Qed.

(** C6: the order of an inference call.  The calls a [__call__] makes on
    the collaborators come in four consecutive runs: those of the
    auxiliary-path step, those of the tuning step, those of the adapter
    step, and last the forward pass.  The forward pass is made exactly when
    the three steps have returned, one after the other in this order, and
    a backend is held; it is made on the backend the third step left, and
    what [__call__] returns is the backend's output through
    [astype(np.uint8)]. *)
Theorem call_reconciles_then_forwards (image mask : ndarray E)
    (config : InpaintRequest.t) (s : St) (r : Res (ndarray E)) (s' : St) :
  __call__ E image mask config s = (r, s') →
  ∃ l1 l2 l3 l4,
    s'.2 = s.2 ++ l1 ++ l2 ++ l3 ++ l4
    ∧ Forall is_aux_event l1
    ∧ Forall is_tuning_event l2
    ∧ Forall is_adapter_event l3
    ∧ (l4 = [] ∨ l4 = [EvForward config])
    ∧ (l4 = [EvForward config] ↔
       ∃ s1 s2 s3 b,
         switch_controlnet_method E config s = (Ok tt, s1)
         ∧ enable_disable_freeu config s1 = (Ok tt, s2)
         ∧ enable_disable_lcm_lora E config s2 = (Ok tt, s3)
         ∧ model s3.1 = Some b)
    ∧ (l4 = [EvForward config] →
       ∃ s1 s2 s3 b,
         switch_controlnet_method E config s = (Ok tt, s1)
         ∧ enable_disable_freeu config s1 = (Ok tt, s2)
         ∧ enable_disable_lcm_lora E config s2 = (Ok tt, s3)
         ∧ model s3.1 = Some b
         ∧ s3.2 = s.2 ++ l1 ++ l2 ++ l3
         ∧ s'.1 = s3.1
         ∧ r = match forward E s3.2 b image mask config with
               | inl e => Raise e
               | inr out => Ok (astype_uint8 E out)
               end)
    ∧ (∀ out, r = Ok out → l4 = [EvForward config]).
Proof.
  unfold __call__. unfold mbind, M_bind.
  destruct (switch_controlnet_method E config s) as [[[]|e1] s1] eqn:H1;
    pose proof (switch_controlnet_method_frame _ _ _ _ H1) as (_ & _ & _ & l1 & Hl1 & Hc1).
  2:{ intros [= <- <-]. exists l1, [], [], []. rewrite !app_nil_r.
      split; [done|]. do 3 (split; [by eauto|]). split; [by left|].
      split; [split; [done|]|split; [done|done]].
      intros (? & ? & ? & ? & ? & _). done. }
  destruct (enable_disable_freeu config s1) as [[[]|e2] s2] eqn:H2;
    pose proof (enable_disable_freeu_frame _ _ _ _ H2) as (_ & _ & l2 & Hl2 & Hc2).
  2:{ intros [= <- <-]. exists l1, l2, [], []. rewrite !app_nil_r, Hl2, Hl1, <- app_assoc.
      split; [done|]. do 3 (split; [by eauto|]). split; [by left|].
      split; [split; [done|]|split; [done|done]].
      intros (? & ? & ? & ? & ? & ? & _). simplify_eq. congruence. }
  destruct (enable_disable_lcm_lora E config s2) as [[[]|e3] s3] eqn:H3;
    pose proof (enable_disable_lcm_lora_frame _ _ _ _ H3) as (_ & _ & l3 & Hl3 & Hc3).
  2:{ intros [= <- <-]. exists l1, l2, l3, [].
      rewrite !app_nil_r, Hl3, Hl2, Hl1, <- !app_assoc.
      split; [done|]. do 3 (split; [by eauto|]). split; [by left|].
      split; [split; [done|]|split; [done|done]].
      intros (? & ? & ? & ? & ? & ? & ? & _). simplify_eq. congruence. }
  assert (Hlog3 : s3.2 = s.2 ++ l1 ++ l2 ++ l3)
    by (by rewrite Hl3, Hl2, Hl1, <- !app_assoc).
  run. destruct s3 as [m3 log3]. cbn [fst snd] in *.
  destruct (model m3) as [b|] eqn:Hb; red_monad.
  - intros Hrun. exists l1, l2, l3, [EvForward config].
    assert (Hres : s' = (m3, log3 ++ [EvForward config])
              ∧ r = match forward E log3 b image mask config with
                    | inl e => Raise e
                    | inr out => Ok (astype_uint8 E out)
                    end)
      by (destruct (forward E log3 b image mask config); by simplify_eq).
    destruct Hres as [-> ->]. cbn [fst snd].
    split; [by rewrite Hlog3, <- !app_assoc|]. do 3 (split; [by eauto|]). split; [by right|].
    split; [|split; [|done]].
    + split; [|done]. intros _. exists s1, s2, (m3, log3), b. done.
    + intros _. by exists s1, s2, (m3, log3), b.
  - intros [= <- <-]. exists l1, l2, l3, []. rewrite app_nil_r. cbn [fst snd].
    split; [done|]. do 3 (split; [by eauto|]). split; [by left|].
    split; [split; [done|]|split; [done|done]].
    intros (s1' & s2' & s3' & b' & E1 & E2 & E3 & Hm).
    injection E1 as <-. rewrite H2 in E2. injection E2 as <-.
    rewrite H3 in E3. injection E3 as <-. cbn in Hm. congruence.
Qed.

Lemma enable_disable_freeu_tunable config m log :
  tunable m →
  ∃ m', enable_disable_freeu config (m, log)
        = (Ok tt, (m', log ++ [if InpaintRequest.sd_freeu config
                               then EvEnableFreeu (InpaintRequest.sd_freeu_config config)
                               else EvDisableFreeu]))
        ∧ tunable m'
        ∧ held_freeu m' = Some (requested_freeu config)
        ∧ (held_freeu m = Some (requested_freeu config) → m' = m).
Proof.
  intros (info & b & Hinfo & Hsup & Hb & Hdev).
  destruct m as [A dev kw cat en meth mdl]. cbn in *. subst mdl.
  apply String.eqb_neq in Hdev.
  unfold enable_disable_freeu, requested_freeu, held_freeu. run.
  unfold set_model. cbn. rewrite Hdev. cbn. rewrite Hinfo. cbn. rewrite Hsup.
  destruct (InpaintRequest.sd_freeu config); cbn;
    (eexists; split; [done|split; [|split; [done|]]]).
  - eexists info, _. cbn. repeat split; try done. by apply String.eqb_neq.
  - intros [= Hf]. destruct b as [d cm [] id]. cbn in *. by subst.
  - eexists info, _. cbn. repeat split; try done. by apply String.eqb_neq.
  - intros [= Hf]. destruct b as [d cm [] id]. cbn in *. by subst.
Qed.

Lemma run_steps_freeu_tunable configs m log :
  tunable m → tunable (run_steps enable_disable_freeu configs (m, log)).1.
Proof.
  revert m log. induction configs as [|c cs IH]; intros m log Ht; [done|].
  cbn. destruct (enable_disable_freeu_tunable c m log Ht) as (m' & -> & Ht' & _).
  by apply IH.
Qed.

(** C8: tuning is last-write-wins.  On a manager that serves a model
    supporting tuning, on a device other than "mps": after any run of
    tuning steps the pipeline holds exactly what the last request asked
    for; enabling twice with the same request leaves the manager as
    enabling once does; enable, disable, enable with other scalars leaves
    the latter scalars; and disable leaves the untuned baseline. *)
Theorem tuning_last_write_wins (m : ModelManager) (log : list Event) :
  tunable m →
  (∀ configs config,
     held_freeu (run_steps enable_disable_freeu (configs ++ [config]) (m, log)).1
     = Some (requested_freeu config))
  ∧ (∀ config,
       InpaintRequest.sd_freeu config = true →
       (run_steps enable_disable_freeu [config; config] (m, log)).1
       = (run_steps enable_disable_freeu [config] (m, log)).1)
  ∧ (∀ c1 c2 c3,
       InpaintRequest.sd_freeu c1 = true →
       InpaintRequest.sd_freeu c2 = false →
       InpaintRequest.sd_freeu c3 = true →
       held_freeu (run_steps enable_disable_freeu [c1; c2; c3] (m, log)).1
       = Some (Some (InpaintRequest.sd_freeu_config c3)))
  ∧ (∀ config,
       InpaintRequest.sd_freeu config = false →
       held_freeu (run_steps enable_disable_freeu [config] (m, log)).1 = Some None).
Proof.
  intros Ht.
  assert (Hlast : ∀ configs config,
    held_freeu (run_steps enable_disable_freeu (configs ++ [config]) (m, log)).1
    = Some (requested_freeu config)).
  { intros configs config. unfold run_steps. rewrite foldl_app. cbn.
    fold (run_steps enable_disable_freeu configs (m, log)).
    pose proof (run_steps_freeu_tunable configs m log Ht) as Ht'.
    destruct (run_steps enable_disable_freeu configs (m, log)) as [m1 log1].
    by destruct (enable_disable_freeu_tunable config m1 log1 Ht') as (m' & -> & _ & Hf & _). }
  split; [done|split; [|split]].
  - intros config Hen. cbn.
    destruct (enable_disable_freeu_tunable config m log Ht) as (m1 & -> & Ht1 & Hf1 & _).
    cbn. by destruct (enable_disable_freeu_tunable config m1 (log ++
      [if InpaintRequest.sd_freeu config
       then EvEnableFreeu (InpaintRequest.sd_freeu_config config)
       else EvDisableFreeu]) Ht1) as (m2 & -> & _ & _ & ->).
  - intros c1 c2 c3 _ _ H3. change [c1; c2; c3] with ([c1; c2] ++ [c3]).
    rewrite Hlast. unfold requested_freeu. by rewrite H3.
  - intros config Hdis. change [config] with ([] ++ [config]).
    rewrite Hlast. unfold requested_freeu. by rewrite Hdis.
Qed.

(** *** The adapter over a run of calls *)







Lemma loads_app l1 l2 : loads (l1 ++ l2) = loads l1 + loads l2.
Proof. unfold loads. by rewrite filter_app, length_app. Qed.

Lemma loads_cons ev l : loads (ev :: l) = ((if is_load ev then 1 else 0) + loads l)%nat.
Proof. unfold loads. by destruct ev. Qed.


(** The adapter step run while no adapter is loaded and the adapter is
    requested: a load is attempted, and what follows is up to the load. *)
Lemma enable_disable_lcm_lora_load m log info b config :
  available_models m !! name m = Some info →
  ModelInfo.support_lcm_lora info = true →
  model m = Some b →
  Pipeline.get_list_adapters (Backend.model b) = [] →
  InpaintRequest.sd_lcm_lora config = true →
  enable_disable_lcm_lora E config (m, log)
  = match Pipeline.load_lora_weights
            (load_lora_raises E (loads log) (Backend.lcm_lora_id b)
                              (is_local_files_only E))
            (Backend.lcm_lora_id b) (Backend.model b) with
    | inr p =>
        (Ok tt,
         (set_model (Some (Backend.set_model p b)) m,
          log ++ [EvGetListAdapters;
                  EvLoadLora (Backend.lcm_lora_id b) (is_local_files_only E)]))
    | inl e =>
        (Raise e,
         (m, log ++ [EvGetListAdapters;
                     EvLoadLora (Backend.lcm_lora_id b) (is_local_files_only E)]))
    end.
Proof.
  destruct m as [A dev kw cat en meth mdl]. cbn. intros Hinfo Hsup -> Hun Hreq.
  unfold enable_disable_lcm_lora. run.
  unfold set_model. cbn -[loads Pipeline.load_lora_weights].
  rewrite Hinfo. cbn -[loads Pipeline.load_lora_weights].
  rewrite Hsup. cbn -[loads Pipeline.load_lora_weights].
  rewrite Hun, Hreq. cbn -[loads Pipeline.load_lora_weights].
  rewrite loads_app. change (loads [EvGetListAdapters]) with 0%nat.
  rewrite Nat.add_0_r, <- app_assoc. cbn -[loads Pipeline.load_lora_weights].
  by destruct (Pipeline.load_lora_weights _ _ _).
Qed.









(** *** The auxiliary method and the descriptor's list *)

Lemma method_compatible_if_supported_frame m m' config :
  name m' = name m →
  available_models m' = available_models m →
  (controlnet_method m' = controlnet_method m
   ∨ controlnet_method m' = InpaintRequest.controlnet_method config) →
  request_compatible m config →
  method_compatible_if_supported m → method_compatible_if_supported m'.
Proof.
  unfold method_compatible_if_supported, request_compatible.
  intros -> -> Hmeth Hreq.
  destruct (available_models m !! name m) as [info|]; [|done].
  destruct (ModelInfo.support_controlnet info) eqn:Hsup; [|done].
  destruct Hmeth as [->| ->]; [done|]. intros _.
  destruct (InpaintRequest.controlnet_method config) as [method|] eqn:Hm; [|done].
  apply bool_decide_pack. by eapply Hreq.
Qed.

Lemma call_frame image mask config s r s' :
  __call__ E image mask config s = (r, s') →
  name s'.1 = name s.1
  ∧ available_models s'.1 = available_models s.1
  ∧ (controlnet_method s'.1 = controlnet_method s.1
     ∨ controlnet_method s'.1 = InpaintRequest.controlnet_method config).
Proof.
  unfold __call__. unfold mbind, M_bind.
  destruct (switch_controlnet_method E config s) as [[[]|e1] s1] eqn:H1;
    pose proof (switch_controlnet_method_frame _ _ _ _ H1) as (Hn1 & Ha1 & Hm1 & _).
  2:{ by intros [= <- <-]. }
  destruct (enable_disable_freeu config s1) as [[[]|e2] s2] eqn:H2;
    pose proof (enable_disable_freeu_frame _ _ _ _ H2) as (Hs2 & _).
  all: unfold settings in Hs2; injection Hs2 as Hn2 _ _ Ha2 _ Hm2.
  2:{ intros [= <- <-]. by rewrite Hn2, Ha2, Hm2. }
  destruct (enable_disable_lcm_lora E config s2) as [[[]|e3] s3] eqn:H3;
    pose proof (enable_disable_lcm_lora_frame _ _ _ _ H3) as (Hs3 & _).
  all: unfold settings in Hs3; injection Hs3 as Hn3 _ _ Ha3 _ Hm3.
  2:{ intros [= <- <-]. by rewrite Hn3, Ha3, Hm3, Hn2, Ha2, Hm2. }
  run. intros Hrun.
  assert (s'.1 = s3.1) as ->.
  { destruct (model s3.1); [|by simplify_eq]. red_monad.
    destruct (forward E s3.2 _ image mask config); by simplify_eq. }
  by rewrite Hn3, Ha3, Hm3, Hn2, Ha2, Hm2.
Qed.

Ltac settle_init_model :=
  repeat (match goal with x : St |- _ => destruct x as [? ?] end);
  repeat (match goal with
          | Hi : init_model _ _ _ _ _ _ = _ |- _ =>
              apply init_model_self in Hi; cbn in Hi; subst
          end).

(** Where [switch] can leave the name and the method: untouched (no-op,
    or rolled back), at the new name with the method of lines 101-106
    (build succeeded), or at the new name before the [try] block (lines
    102 and 106 raised). *)
Lemma switch_outcome m log new_name r s' :
  switch E new_name (m, log) = (r, s') →
  available_models s'.1 = available_models m
  ∧ ((name s'.1 = name m ∧ controlnet_method s'.1 = controlnet_method m)
     ∨ (name s'.1 = new_name ∧ available_models m !! new_name = None)
     ∨ (∃ info, name s'.1 = new_name
                ∧ available_models m !! new_name = Some info
                ∧ ModelInfo.support_controlnet info = true
                ∧ ModelInfo.controlnets info = [])
     ∨ (∃ info, name s'.1 = new_name
                ∧ available_models m !! new_name = Some info
                ∧ r = Ok tt
                ∧ controlnet_method s'.1 = method_on_switch info (controlnet_method m)
                ∧ (ModelInfo.support_controlnet info = true →
                   ModelInfo.controlnets info ≠ []))).
Proof.
  destruct m as [A dev kw cat en meth mdl]. cbn.
  unfold switch. run.
  unfold set_model, set_name, set_controlnet_method. cbn -[init_model].
  case_bool_decide as Hname; cbn -[init_model]; [intros [= <- <-]; by auto|].
  destruct (cat !! new_name) as [info|] eqn:Hinfo; cbn -[init_model].
  2:{ intros [= <- <-]. by auto. }
  unfold method_on_switch.
  destruct (ModelInfo.support_controlnet info && not_in meth (ModelInfo.controlnets info))
    eqn:Hc.
  - apply andb_prop in Hc as [Hsup Hnot].
    destruct (ModelInfo.controlnets info) as [|c cs] eqn:Hcs; cbn -[init_model].
    { intros [= <- <-]. cbn. split; [done|]. right. right. left. by exists info. }
    intros H. split.
    + branch; settle_init_model; done.
    + assert (Hlast : name s'.1 = new_name → r = Ok tt ∧ controlnet_method s'.1 = Some c)
        by (branch; settle_init_model; done).
      assert (Hcase : (name s'.1 = A ∧ controlnet_method s'.1 = meth) ∨ name s'.1 = new_name)
        by (branch; settle_init_model; cbn; by auto).
      destruct Hcase as [?|Hn]; [by left|].
      do 3 right. exists info. rewrite Hcs, Hsup, Hnot. cbn.
      destruct (Hlast Hn) as [Hr Hm]. do 4 (split; [done|]). by intros _.
  - cbn -[init_model]. intros H. split.
    + branch; settle_init_model; done.
    + assert (Hlast : name s'.1 = new_name → r = Ok tt ∧ controlnet_method s'.1 = meth)
        by (branch; settle_init_model; done).
      assert (Hcase : (name s'.1 = A ∧ controlnet_method s'.1 = meth) ∨ name s'.1 = new_name)
        by (branch; settle_init_model; cbn; by auto).
      destruct Hcase as [?|Hn]; [by left|].
      do 3 right. exists info. rewrite Hc. destruct (Hlast Hn) as [Hr Hm].
      do 4 (split; [done|]).
      intros Hsup Hnil. rewrite Hsup, Hnil in Hc. by destruct meth.
Qed.

Lemma switch_method_compatible m log new_name r s' :
  catalog_wf (available_models m) →
  method_compatible_if_supported m →
  switch E new_name (m, log) = (r, s') →
  method_compatible_if_supported s'.1.
Proof.
  intros Hwf Hinv Hrun.
  destruct (switch_outcome _ _ _ _ _ Hrun)
    as (Hcat & [[Hn Hm]|[[Hn Hnone]|[(info & Hn & Hinfo & Hsup & Hnil)
                                     |(info & Hn & Hinfo & _ & Hm & _)]]]);
    unfold method_compatible_if_supported in *; rewrite Hcat, Hn.
  - by rewrite Hm.
  - by rewrite Hnone.
  - by destruct (Hwf _ _ Hinfo Hsup).
  - rewrite Hinfo, Hm. unfold method_on_switch.
    destruct (ModelInfo.support_controlnet info) eqn:Hsup; [|done]. cbn.
    destruct (not_in (controlnet_method m) (ModelInfo.controlnets info)) eqn:Hnot.
    + specialize (Hwf _ _ Hinfo Hsup).
      destruct (ModelInfo.controlnets info) as [|c cs]; [done|].
      cbn. apply bool_decide_pack. by left.
    + destruct (controlnet_method m) as [method|]; [|done].
      cbn in Hnot. apply negb_false_iff in Hnot. by rewrite Hnot.
Qed.

(** What a successful construction leaves in the manager. *)
Lemma init_outcome n dev kw log m log' :
  __init__ E n dev kw log = (Ok m, log') →
  name m = n
  ∧ available_models m = dict_by_name (scan_models E)
  ∧ enable_controlnet m = get_enable_controlnet kw
  ∧ match kw_controlnet_method kw, dict_by_name (scan_models E) !! n with
    | None, Some info =>
        if ModelInfo.support_controlnet info
        then ∃ c cs, ModelInfo.controlnets info = c :: cs ∧ controlnet_method m = Some c
        else controlnet_method m = None
    | pinned, _ => controlnet_method m = pinned
    end.
Proof.
  unfold __init__, do_scan_models. run.
  unfold set_available_models, set_enable_controlnet, set_controlnet_method, set_model.
  cbn -[init_model].
  destruct (kw_controlnet_method kw) as [method|] eqn:Hkw; cbn -[init_model].
  { intros H. branch; settle_init_model; done. }
  destruct (dict_by_name (scan_models E) !! n) as [info|] eqn:Hinfo; cbn -[init_model].
  2:{ intros H. branch; settle_init_model; done. }
  destruct (ModelInfo.support_controlnet info) eqn:Hsup; cbn -[init_model].
  2:{ intros H. branch; settle_init_model; done. }
  destruct (ModelInfo.controlnets info) as [|c cs] eqn:Hcs; cbn -[init_model]; [done|].
  intros H. branch; settle_init_model. cbn. repeat split; try done. by exists c, cs.
Qed.

Lemma init_method_compatible n dev kw log m log' :
  pinned_compatible (dict_by_name (scan_models E)) n kw →
  __init__ E n dev kw log = (Ok m, log') →
  method_compatible_if_supported m.
Proof.
  unfold pinned_compatible, method_compatible_if_supported.
  intros Hpin Hrun. destruct (init_outcome _ _ _ _ _ _ Hrun) as (<- & -> & _ & Hm).
  destruct (dict_by_name (scan_models E) !! name m) as [info|] eqn:Hinfo; [|done].
  destruct (ModelInfo.support_controlnet info) eqn:Hsup; [|done].
  destruct (kw_controlnet_method kw) as [method|] eqn:Hkw.
  - rewrite Hm. apply bool_decide_pack. by eapply Hpin.
  - destruct Hm as (c & cs & Hcs & ->). rewrite Hcs. apply bool_decide_pack. by left.
Qed.

(** Once the auxiliary step has returned, the rest of the call makes no
    auxiliary call and leaves the manager's settings alone. *)
Lemma call_after_aux image mask config s s1 :
  switch_controlnet_method E config s = (Ok tt, s1) →
  ∃ evs,
    (__call__ E image mask config s).2.2 = s1.2 ++ evs
    ∧ Forall (λ ev, ¬ is_aux_event ev) evs
    ∧ settings (__call__ E image mask config s).2.1 = settings s1.1.
Proof.
  intros H1. unfold __call__. unfold mbind, M_bind. rewrite H1.
  destruct (enable_disable_freeu config s1) as [[[]|e2] s2] eqn:H2;
    pose proof (enable_disable_freeu_frame _ _ _ _ H2) as (Hs2 & _ & l2 & Hl2 & Hc2).
  all: assert (Hn2 : Forall (λ ev, ¬ is_aux_event ev) l2)
    by (eapply Forall_impl; [exact Hc2|]; intros []; cbn; tauto).
  2:{ exists l2. cbn [snd]. by split; [|split]. }
  destruct (enable_disable_lcm_lora E config s2) as [[[]|e3] s3] eqn:H3;
    pose proof (enable_disable_lcm_lora_frame _ _ _ _ H3) as (Hs3 & _ & l3 & Hl3 & Hc3).
  all: assert (Hn3 : Forall (λ ev, ¬ is_aux_event ev) (l2 ++ l3))
    by (apply Forall_app; split; [done|];
        eapply Forall_impl; [exact Hc3|]; intros []; cbn; tauto).
  2:{ exists (l2 ++ l3). cbn [snd]. rewrite Hl3, Hl2, Hs3, Hs2, <- app_assoc.
      by split; [|split]. }
  run. destruct (model s3.1) as [b|]; red_monad.
  - exists ((l2 ++ l3) ++ [EvForward config]).
    destruct (forward E _ b image mask config); cbn [fst snd];
      (rewrite Hl3, Hl2, Hs3, Hs2, <- !app_assoc; split; [done|split; [|done]];
       rewrite app_assoc; apply Forall_app; split; [done|];
       apply Forall_singleton; cbn; tauto).
  - exists (l2 ++ l3). cbn [fst snd]. rewrite Hl3, Hl2, Hs3, Hs2, <- app_assoc.
    by split; [|split].
Qed.

(** C10: the method-change branch of lines 128-138 comes before the flag
    branch.  When the descriptor supports ControlNet, ControlNet is on, and
    the request names a method other than the current one while also
    turning ControlNet off, the step makes the backend's cheap method
    switch and nothing else, keeping the backend object; over the whole
    call no constructor is called, the manager's enabled flag stays on and
    its method is the requested one. *)
Theorem method_change_before_flag_change (m : ModelManager) (log : list Event)
    (info : ModelInfo.t) (b : Backend.t) (config : InpaintRequest.t) :
  available_models m !! name m = Some info →
  ModelInfo.support_controlnet info = true →
  enable_controlnet m = true →
  model m = Some b →
  truthy (InpaintRequest.controlnet_method config) = true →
  controlnet_method m ≠ InpaintRequest.controlnet_method config →
  InpaintRequest.enable_controlnet config ≠ enable_controlnet m →
  let method := InpaintRequest.controlnet_method config in
  switch_controlnet_method E config (m, log)
  = (Ok tt, (set_model (Some (Backend.switch_controlnet_method method b))
               (set_controlnet_method method m),
             log ++ [EvSwitchMethod method]))
  ∧ ∀ image mask,
      let s' := (__call__ E image mask config (m, log)).2 in
      enable_controlnet s'.1 = true
      ∧ controlnet_method s'.1 = method
      ∧ ∃ evs, s'.2 = log ++ EvSwitchMethod method :: evs
               ∧ Forall (λ ev, ¬ is_aux_event ev) evs.
Proof.
  intros Hinfo Hsup Hen Hb Htruthy Hneq _ method. subst method.
  assert (Hstep : switch_controlnet_method E config (m, log)
    = (Ok tt, (set_model (Some (Backend.switch_controlnet_method
                                  (InpaintRequest.controlnet_method config) b))
                 (set_controlnet_method (InpaintRequest.controlnet_method config) m),
               log ++ [EvSwitchMethod (InpaintRequest.controlnet_method config)]))).
  { unfold switch_controlnet_method. run.
    rewrite Hinfo. red_monad. rewrite Hsup, Hen, Htruthy. cbn [negb andb].
    rewrite bool_decide_eq_true_2 by done. red_monad.
    unfold set_controlnet_method at 1. cbn [model]. by rewrite Hb. }
  split; [done|]. intros image mask s'. subst s'.
  destruct (call_after_aux image mask config _ _ Hstep) as (evs & Hlog & Hev & Hset).
  unfold settings in Hset. injection Hset as _ _ _ _ Hflag Hmeth.
  rewrite Hflag, Hmeth, Hlog. cbn. split; [done|]. split; [done|].
  exists evs. by rewrite <- app_assoc.
Qed.

Lemma dict_by_name_wf (l : list ModelInfo.t) :
  Forall descriptor_wf l → catalog_wf (dict_by_name l).
Proof.
  unfold dict_by_name, catalog_wf. intros Hl.
  assert (G : ∀ (d : gmap string ModelInfo.t),
    (∀ k i, d !! k = Some i → descriptor_wf i) →
    ∀ k i, foldl (λ d it, <[ModelInfo.name it := it]> d) d l !! k = Some i →
           descriptor_wf i).
  { induction Hl as [|it l Hit _ IH]; intros d Hd k i; cbn; [by apply Hd|].
    apply IH. intros k2 i2. rewrite lookup_insert.
    case_decide; [by intros [= <-]|by apply Hd]. }
  apply G. intros k i Hk. by rewrite lookup_empty in Hk.
Qed.

(** Under a descriptor without the auxiliary path the auxiliary step
    returns at once (line 125). *)
Lemma switch_controlnet_method_unsupported m log info config :
  available_models m !! name m = Some info →
  ModelInfo.support_controlnet info = false →
  switch_controlnet_method E config (m, log) = (Ok tt, (m, log)).
Proof.
  intros Hinfo Hsup. unfold switch_controlnet_method. run.
  by rewrite Hinfo, Hsup.
Qed.

(** C3, amended.  Under a current descriptor that supports the auxiliary
    path, the current method, if set, is one of the descriptor's compatible
    methods: construction establishes this when the options pin no method
    or a compatible one; [switch] preserves it, however it ends, over a
    catalog whose descriptors list a method when they support the
    auxiliary path; each reconciliation step and the whole call preserve
    it when the method the request names, if any, is compatible with the
    current descriptor.  Under a descriptor without the auxiliary path the
    method is left as it was, neither checked nor cleared: construction
    under such a descriptor leaves the method the options pin, a switch to
    such a descriptor leaves the method the manager had, however it ends,
    and so do each reconciliation step and the whole call under such a
    current descriptor. *)
Theorem method_compatible_where_supported :
  (∀ n dev kw log m log',
     pinned_compatible (dict_by_name (scan_models E)) n kw →
     __init__ E n dev kw log = (Ok m, log') →
     method_compatible_if_supported m)
  ∧ (∀ m log new_name r s',
       catalog_wf (available_models m) →
       method_compatible_if_supported m →
       switch E new_name (m, log) = (r, s') →
       method_compatible_if_supported s'.1)
  ∧ (∀ m log config r s',
       method_compatible_if_supported m →
       request_compatible m config →
       switch_controlnet_method E config (m, log) = (r, s')
       ∨ enable_disable_freeu config (m, log) = (r, s')
       ∨ enable_disable_lcm_lora E config (m, log) = (r, s') →
       method_compatible_if_supported s'.1)
  ∧ (∀ m log image mask config r s',
       method_compatible_if_supported m →
       request_compatible m config →
       __call__ E image mask config (m, log) = (r, s') →
       method_compatible_if_supported s'.1)
  ∧ (∀ n dev kw log m log' info,
       dict_by_name (scan_models E) !! n = Some info →
       ModelInfo.support_controlnet info = false →
       __init__ E n dev kw log = (Ok m, log') →
       controlnet_method m = kw_controlnet_method kw)
  ∧ (∀ m log new_name info r s',
       available_models m !! new_name = Some info →
       ModelInfo.support_controlnet info = false →
       switch E new_name (m, log) = (r, s') →
       controlnet_method s'.1 = controlnet_method m)
  ∧ (∀ m log config info r s',
       available_models m !! name m = Some info →
       ModelInfo.support_controlnet info = false →
       switch_controlnet_method E config (m, log) = (r, s')
       ∨ enable_disable_freeu config (m, log) = (r, s')
       ∨ enable_disable_lcm_lora E config (m, log) = (r, s') →
       controlnet_method s'.1 = controlnet_method m)
  ∧ (∀ m log image mask config info r s',
       available_models m !! name m = Some info →
       ModelInfo.support_controlnet info = false →
       __call__ E image mask config (m, log) = (r, s') →
       controlnet_method s'.1 = controlnet_method m).
Proof.
  split; [|split; [|split; [|split; [|split; [|split; [|split]]]]]].
  - intros n dev kw log m log'. apply init_method_compatible.
  - intros m log new_name r s'. apply switch_method_compatible.
  - intros m log config r s' Hinv Hreq [Hrun|[Hrun|Hrun]].
    + apply switch_controlnet_method_frame in Hrun as (Hn & Ha & Hm & _).
      by eapply method_compatible_if_supported_frame.
    + apply enable_disable_freeu_frame in Hrun as (Hs & _).
      unfold settings in Hs. injection Hs as Hn _ _ Ha _ Hm.
      eapply method_compatible_if_supported_frame; eauto.
    + apply enable_disable_lcm_lora_frame in Hrun as (Hs & _).
      unfold settings in Hs. injection Hs as Hn _ _ Ha _ Hm.
      eapply method_compatible_if_supported_frame; eauto.
  - intros m log image mask config r s' Hinv Hreq Hrun.
    apply call_frame in Hrun as (Hn & Ha & Hm).
    by eapply method_compatible_if_supported_frame.
  - intros n dev kw log m log' info Hinfo Hsup Hrun.
    apply init_outcome in Hrun as (_ & _ & _ & Hm).
    rewrite Hinfo, Hsup in Hm. by destruct (kw_controlnet_method kw).
  - intros m log new_name info r s' Hinfo Hsup Hrun.
    apply switch_outcome in Hrun as (_ & Hcases).
    destruct Hcases as [[_ Hm]|[[_ Hnone]|[(info' & _ & Hinfo' & Hsup' & _)
                                          |(info' & _ & Hinfo' & _ & Hm & _)]]].
    + done.
    + congruence.
    + congruence.
    + rewrite Hm. unfold method_on_switch.
      assert (info' = info) as -> by congruence. by rewrite Hsup.
  - intros m log config info r s' Hinfo Hsup [Hrun|[Hrun|Hrun]].
    + rewrite (switch_controlnet_method_unsupported m log info) in Hrun by done.
      by simplify_eq.
    + apply enable_disable_freeu_frame in Hrun as (Hs & _).
      unfold settings in Hs. by injection Hs.
    + apply enable_disable_lcm_lora_frame in Hrun as (Hs & _).
      unfold settings in Hs. by injection Hs.
  - intros m log image mask config info r s' Hinfo Hsup Hrun.
    destruct (call_after_aux image mask config (m, log) (m, log)) as (_ & _ & _ & Hs).
    { by apply (switch_controlnet_method_unsupported m log info). }
    rewrite Hrun in Hs. unfold settings in Hs. by injection Hs.
Qed.

End Facts.

(** ** Further properties of the manager *)

Section More.
Context (E : External).

Ltac settle :=
  repeat (match goal with x : St |- _ => destruct x as [? ?] end);
  repeat (match goal with
          | Hi : init_model _ _ _ _ _ _ = _ |- _ =>
              apply init_model_self in Hi; cbn in Hi; subst
          end).

(** *** The catalog *)

Lemma dict_by_name_snoc (l : list ModelInfo.t) (it : ModelInfo.t) :
  dict_by_name (l ++ [it]) = <[ModelInfo.name it := it]> (dict_by_name l).
Proof. unfold dict_by_name. by rewrite foldl_app. Qed.

(** X1: the catalog built from a scan (lines 88-91).  Every entry is stored
    under its own name and comes from the scan; every scanned descriptor's
    name is in the catalog; and of several descriptors with one name the
    last scanned is the one stored. *)
Theorem scan_models_catalog (l : list ModelInfo.t) :
  (∀ key info, dict_by_name l !! key = Some info →
               ModelInfo.name info = key ∧ info ∈ l)
  ∧ (∀ info, info ∈ l → is_Some (dict_by_name l !! ModelInfo.name info))
  ∧ (∀ l1 info l2,
       l = l1 ++ info :: l2 →
       Forall (λ other, ModelInfo.name other ≠ ModelInfo.name info) l2 →
       dict_by_name l !! ModelInfo.name info = Some info).
Proof.
  split; [|split].
  - induction l as [|it l IH] using rev_ind; intros key info.
    + unfold dict_by_name. cbn. by rewrite lookup_empty.
    + rewrite dict_by_name_snoc, lookup_insert. case_decide as Hk.
      * intros [= <-]. split; [done|]. apply elem_of_app. right. by left.
      * intros Hl. destruct (IH _ _ Hl) as [? ?]. split; [done|].
        apply elem_of_app. by left.
  - induction l as [|it l IH] using rev_ind; intros info Hin.
    + by apply elem_of_nil in Hin.
    + rewrite dict_by_name_snoc, lookup_insert. case_decide; [by eexists|].
      apply elem_of_app in Hin as [Hin|Hin]; [by apply IH|].
      apply list_elem_of_singleton in Hin. by subst.
  - intros l1 info l2 ->. induction l2 as [|other l2 IH] using rev_ind; intros Hl2.
    + by rewrite dict_by_name_snoc, lookup_insert_eq.
    + apply Forall_app in Hl2 as [Hl2 Hother]. apply Forall_inv in Hother.
      change (l1 ++ info :: l2 ++ [other]) with (l1 ++ (info :: l2) ++ [other]).
      rewrite app_assoc, dict_by_name_snoc, lookup_insert_ne by done. by apply IH.
Qed.

(** *** Construction *)

(** What [init_model] does for a descriptor stored under its own name. *)
Lemma init_model_selected (m : ModelManager) (log : list Event) (n : string)
    (info : ModelInfo.t) (dev : Device) (pc : option PipeComponents) (kw : Kwargs) :
  available_models m !! n = Some info →
  ModelInfo.name info = n →
  init_model E n dev pc kw (m, log)
  = match factory_spec (models E) (enable_controlnet m) info with
    | Some cls =>
        call_class E cls dev
          (mkCtorKwargs kw pc info (enable_controlnet m) (controlnet_method m)) (m, log)
    | None => (Raise (NotImplementedError n), (m, log))
    end.
Proof.
  intros Hinfo Hname.
  assert (Hdom : bool_decide (n ∉ dom (available_models m)) = false).
  { apply bool_decide_eq_false_2. intros Hn. apply Hn, elem_of_dom. eauto. }
  unfold factory_spec, init_model. run. rewrite Hdom. red_monad. rewrite Hinfo. red_monad.
  destruct (ModelInfo.support_controlnet info && enable_controlnet m); [done|].
  rewrite Hname.
  destruct (models E !! n) as [cls|] eqn:Hreg.
  - rewrite bool_decide_eq_true_2 by (apply elem_of_dom; eauto). done.
  - rewrite bool_decide_eq_false_2 by (rewrite elem_of_dom, Hreg; by intros [? ?]).
    by destruct (ModelInfo.model_type info).
Qed.

(** X2: constructing a manager under a name the scan does not list raises
    the unsupported-model error (lines 39-42) and calls no constructor,
    whatever the options. *)
Theorem init_unknown_name (n : string) (dev : Device) (kw : Kwargs) (log : list Event) :
  dict_by_name (scan_models E) !! n = None →
  __init__ E n dev kw log = (Raise (NotImplementedError n), log).
Proof.
  intros Hnone. unfold __init__, do_scan_models, init_model. run.
  unfold set_available_models, set_enable_controlnet, set_controlnet_method. cbn.
  rewrite Hnone.
  assert (Hdom : bool_decide (n ∉ dom (dict_by_name (scan_models E))) = true).
  { apply bool_decide_eq_true_2. rewrite elem_of_dom, Hnone. by intros [? ?]. }
  destruct (kw_controlnet_method kw); cbn; by rewrite Hdom.
Qed.

(** X3: a construction that returns a manager has made exactly one
    constructor call: on the class the dispatch order selects for the named
    descriptor under the options' ControlNet flag, with the device as it was
    passed (no remapping), and with the flag and the method the manager
    ends up with among the keyword arguments.  The manager holds the backend
    that call returned, under the scanned catalog. *)
Theorem init_builds_selected_backend (n : string) (dev : Device) (kw : Kwargs)
    (log : list Event) (m : ModelManager) (log' : list Event) :
  __init__ E n dev kw log = (Ok m, log') →
  ∃ info cls b,
    dict_by_name (scan_models E) !! n = Some info
    ∧ factory_spec (models E) (get_enable_controlnet kw) info = Some cls
    ∧ construct E log cls dev
        (mkCtorKwargs kw None info (get_enable_controlnet kw) (controlnet_method m)) = inr b
    ∧ log' = log ++ [EvConstruct cls dev
                       (mkCtorKwargs kw None info (get_enable_controlnet kw)
                                     (controlnet_method m))]
    ∧ m = mkModelManager n dev kw (dict_by_name (scan_models E))
                         (get_enable_controlnet kw) (controlnet_method m) (Some b).
Proof.
  unfold __init__, do_scan_models. run.
  unfold set_available_models, set_enable_controlnet, set_controlnet_method, set_model.
  cbn -[init_model].
  destruct (dict_by_name (scan_models E) !! n) as [info|] eqn:Hinfo.
  2:{ unfold init_model. run. cbn.
      assert (Hdom : bool_decide (n ∉ dom (dict_by_name (scan_models E))) = true).
      { apply bool_decide_eq_true_2. rewrite elem_of_dom, Hinfo. by intros [? ?]. }
      destruct (kw_controlnet_method kw); cbn; by rewrite Hdom. }
  pose proof (dict_by_name_key _ _ _ Hinfo) as Hname.
  assert (Hgo : ∀ method,
    (let (r, s') :=
       init_model E n dev None kw
         (mkModelManager n dev kw (dict_by_name (scan_models E))
            (get_enable_controlnet kw) method None, log) in
     match r with
     | Ok b => (Ok tt, (mkModelManager (name s'.1) (device s'.1) (kwargs s'.1)
                          (available_models s'.1) (enable_controlnet s'.1)
                          (controlnet_method s'.1) (Some b), s'.2))
     | Raise e => (Raise e, s')
     end) = (Ok tt, (m, log')) →
    ∃ cls b,
      factory_spec (models E) (get_enable_controlnet kw) info = Some cls
      ∧ construct E log cls dev
          (mkCtorKwargs kw None info (get_enable_controlnet kw) method) = inr b
      ∧ log' = log ++ [EvConstruct cls dev
                         (mkCtorKwargs kw None info (get_enable_controlnet kw) method)]
      ∧ m = mkModelManager n dev kw (dict_by_name (scan_models E))
                           (get_enable_controlnet kw) method (Some b)).
  { intros method. rewrite (init_model_selected _ _ _ info) by done. cbn.
    destruct (factory_spec (models E) (get_enable_controlnet kw) info) as [cls|]; [|done].
    unfold call_class. run.
    destruct (construct E log cls dev _) as [e|b] eqn:Hc; [done|].
    intros [= <- <-]. by exists cls, b. }
  assert (Hfin : ∀ method,
    (∃ cls b,
      factory_spec (models E) (get_enable_controlnet kw) info = Some cls
      ∧ construct E log cls dev
          (mkCtorKwargs kw None info (get_enable_controlnet kw) method) = inr b
      ∧ log' = log ++ [EvConstruct cls dev
                         (mkCtorKwargs kw None info (get_enable_controlnet kw) method)]
      ∧ m = mkModelManager n dev kw (dict_by_name (scan_models E))
                           (get_enable_controlnet kw) method (Some b)) →
    ∃ info0 cls b,
      Some info = Some info0
      ∧ factory_spec (models E) (get_enable_controlnet kw) info0 = Some cls
      ∧ construct E log cls dev
          (mkCtorKwargs kw None info0 (get_enable_controlnet kw) (controlnet_method m)) = inr b
      ∧ log' = log ++ [EvConstruct cls dev
                         (mkCtorKwargs kw None info0 (get_enable_controlnet kw)
                                       (controlnet_method m))]
      ∧ m = mkModelManager n dev kw (dict_by_name (scan_models E))
                           (get_enable_controlnet kw) (controlnet_method m) (Some b)).
  { intros method (cls & b & Hsel & Hb & Hlog & Hm). exists info, cls, b.
    assert (controlnet_method m = method) as -> by (by rewrite Hm). done. }
  destruct (kw_controlnet_method kw) as [method|]; cbn -[init_model].
  { intros Hrun. apply (Hfin (Some method)), Hgo.
    destruct (init_model _ _ _ _ _ _) as [[b|e] [m1 l1]]; cbn in *; by simplify_eq. }
  destruct (ModelInfo.support_controlnet info); cbn -[init_model].
  - destruct (ModelInfo.controlnets info) as [|c cs]; cbn -[init_model]; [done|].
    intros Hrun. apply (Hfin (Some c)), Hgo.
    destruct (init_model _ _ _ _ _ _) as [[b|e] [m1 l1]]; cbn in *; by simplify_eq.
  - intros Hrun. apply (Hfin None), Hgo.
    destruct (init_model _ _ _ _ _ _) as [[b|e] [m1 l1]]; cbn in *; by simplify_eq.
Qed.

(** *** Switching *)

(** X4: a switch whose build succeeds.  The manager holds a backend and B is
    another catalog entry that lists a method if it supports the auxiliary
    path.  The held backend is released ([del], then [torch_gc]) before the
    constructor for B is called; when that call returns [b], [switch]
    returns, and the manager is at B with the method of lines 101-106 and
    holds [b]; nothing else of it has changed. *)
Theorem switch_installs_new_backend (m : ModelManager) (log : list Event) (B : string)
    (info_B : ModelInfo.t) (held b : Backend.t) (log_B : list Event) :
  B ≠ name m →
  available_models m !! B = Some info_B →
  descriptor_wf info_B →
  model m = Some held →
  let target := set_controlnet_method (method_on_switch info_B (controlnet_method m))
                  (set_name B m) in
  init_model E B (switch_mps_device E B (device m)) None (kwargs m)
             (set_model None target, (log ++ [EvDel]) ++ [EvTorchGc])
  = (Ok b, (set_model None target, log_B)) →
  switch E B (m, log) = (Ok tt, (set_model (Some b) target, log_B)).
Proof.
  destruct m as [A dev kw cat en meth mdl];
    unfold set_model, set_name, set_controlnet_method; cbn -[init_model] in *.
  intros Hne HB Hwf -> Hbuild. unfold switch. run.
  unfold set_model, set_name, set_controlnet_method.
  cbn -[init_model]. rewrite bool_decide_eq_false_2 by done.
  cbn -[init_model]. rewrite HB. cbn -[init_model].
  unfold method_on_switch, descriptor_wf in *.
  destruct (ModelInfo.support_controlnet info_B
            && not_in meth (ModelInfo.controlnets info_B)) eqn:Hc.
  - destruct (ModelInfo.controlnets info_B) as [|c cs] eqn:Hcs.
    { apply andb_prop in Hc as [Hs _]. by destruct (Hwf Hs). }
    cbn -[init_model] in *. by rewrite Hbuild.
  - cbn -[init_model] in *. by rewrite Hbuild.
Qed.

(** X5: a switch whose build and rollback both fail.  When the build of B
    raises and the rebuild of the old model raises [e2], [switch] raises
    [e2]; the name and the method are the old ones again, but the manager
    holds no backend any more. *)
Theorem switch_rollback_fails (m : ModelManager) (log : list Event) (B : string)
    (info_B : ModelInfo.t) (held : Backend.t) (e e2 : Exn) (log_B log_A : list Event) :
  B ≠ name m →
  available_models m !! B = Some info_B →
  descriptor_wf info_B →
  model m = Some held →
  let mid := set_model None
               (set_controlnet_method (method_on_switch info_B (controlnet_method m))
                  (set_name B m)) in
  init_model E B (switch_mps_device E B (device m)) None (kwargs m)
             (mid, (log ++ [EvDel]) ++ [EvTorchGc]) = (Raise e, (mid, log_B)) →
  init_model E (name m) (switch_mps_device E (name m) (device m)) None (kwargs m)
             (set_model None m, log_B) = (Raise e2, (set_model None m, log_A)) →
  switch E B (m, log) = (Raise e2, (set_model None m, log_A)).
Proof.
  destruct m as [A dev kw cat en meth mdl];
    unfold set_model, set_name, set_controlnet_method; cbn -[init_model] in *.
  intros Hne HB Hwf -> Hbuild Hrebuild. unfold switch. run.
  unfold set_model, set_name, set_controlnet_method.
  cbn -[init_model]. rewrite bool_decide_eq_false_2 by done.
  cbn -[init_model]. rewrite HB. cbn -[init_model].
  unfold method_on_switch, descriptor_wf in *.
  destruct (ModelInfo.support_controlnet info_B
            && not_in meth (ModelInfo.controlnets info_B)) eqn:Hc.
  - destruct (ModelInfo.controlnets info_B) as [|c cs] eqn:Hcs.
    { apply andb_prop in Hc as [Hs _]. by destruct (Hwf Hs). }
    cbn -[init_model] in *. rewrite Hbuild. cbn -[init_model]. by rewrite Hrebuild.
  - cbn -[init_model] in *. rewrite Hbuild. cbn -[init_model]. by rewrite Hrebuild.
Qed.

(** X6: a switch on a manager that holds no backend (as X5 leaves it) never
    calls the constructor for B: [del self.model] raises inside the [try]
    block, and the handler rebuilds the current model.  If that rebuild
    returns, the manager holds a backend again, still under its old name,
    and [switch] raises the [AttributeError]; if it raises, that error
    comes out and the manager is as before. *)
Theorem switch_without_backend (m : ModelManager) (log : list Event) (B : string)
    (info_B : ModelInfo.t) (r : Res Backend.t) (log_A : list Event) :
  B ≠ name m →
  available_models m !! B = Some info_B →
  descriptor_wf info_B →
  model m = None →
  init_model E (name m) (switch_mps_device E (name m) (device m)) None (kwargs m) (m, log)
  = (r, (m, log_A)) →
  switch E B (m, log)
  = match r with
    | Ok b => (Raise (AttributeError "model"), (set_model (Some b) m, log_A))
    | Raise e2 => (Raise e2, (m, log_A))
    end.
Proof.
  destruct m as [A dev kw cat en meth mdl];
    unfold set_model, set_name, set_controlnet_method; cbn -[init_model] in *.
  intros Hne HB Hwf -> Hrebuild. unfold switch. run.
  unfold set_model, set_name, set_controlnet_method.
  cbn -[init_model]. rewrite bool_decide_eq_false_2 by done.
  cbn -[init_model]. rewrite HB. cbn -[init_model].
  unfold descriptor_wf in *.
  destruct (ModelInfo.support_controlnet info_B
            && not_in meth (ModelInfo.controlnets info_B)) eqn:Hc.
  - destruct (ModelInfo.controlnets info_B) as [|c cs] eqn:Hcs.
    { apply andb_prop in Hc as [Hs _]. by destruct (Hwf Hs). }
    cbn -[init_model] in *. rewrite Hrebuild. by destruct r.
  - cbn -[init_model] in *. rewrite Hrebuild. by destruct r.
Qed.

(** X7: a switch to a catalog entry that supports the auxiliary path but
    lists no method, from a manager whose method is unset or anything else:
    [controlnets[0]] at line 106 raises [IndexError] before the [try]
    block, so the name stays overwritten, the old backend stays held and no
    collaborator is called. *)
Theorem switch_empty_method_list (m : ModelManager) (log : list Event) (B : string)
    (info_B : ModelInfo.t) :
  B ≠ name m →
  available_models m !! B = Some info_B →
  ModelInfo.support_controlnet info_B = true →
  ModelInfo.controlnets info_B = [] →
  switch E B (m, log) = (Raise IndexError, (set_name B m, log)).
Proof.
  destruct m as [A dev kw cat en meth mdl]; unfold set_name; cbn in *.
  intros Hne HB Hsup Hnil. unfold switch. run.
  unfold set_model, set_name, set_controlnet_method.
  cbn -[init_model]. rewrite bool_decide_eq_false_2 by done.
  cbn -[init_model]. rewrite HB. cbn -[init_model]. rewrite Hsup, Hnil.
  by destruct meth.
Qed.

(** [init_model] calls at most one constructor. *)
Lemma init_model_run name dev pc kw s r s' :
  init_model E name dev pc kw s = (r, s') →
  s'.1 = s.1
  ∧ (s'.2 = s.2 ∨ ∃ cls dev' kw', s'.2 = s.2 ++ [EvConstruct cls dev' kw']).
Proof.
  intros H. split; [by eapply init_model_self|]. revert H.
  unfold init_model. run. destruct s as [m log]. red_monad.
  intros H. branch; by eauto.
Qed.

Ltac fin_frame :=
  split; [by rewrite <- ?app_assoc, ?app_nil_r
         |split; [by auto|split; [by repeat constructor|cbn; lia]]].

(** X8: what [switch] never touches and how much it builds.  However it
    ends, the catalog, the device, the options and the ControlNet flag are
    as before; the calls it makes are at most one release of the held
    backend and then at most two constructor calls. *)
Theorem switch_frame (m : ModelManager) (log : list Event) (new_name : string)
    (r : Res unit) (s' : St) :
  switch E new_name (m, log) = (r, s') →
  available_models s'.1 = available_models m
  ∧ device s'.1 = device m
  ∧ kwargs s'.1 = kwargs m
  ∧ enable_controlnet s'.1 = enable_controlnet m
  ∧ ∃ released built,
      s'.2 = log ++ released ++ built
      ∧ (released = [] ∨ released = [EvDel; EvTorchGc])
      ∧ Forall is_construct built
      ∧ (length built ≤ 2)%nat.
Proof.
  destruct m as [A dev kw cat en meth mdl]. cbn.
  unfold switch. run.
  unfold set_model, set_name, set_controlnet_method. cbn -[init_model].
  intros H.
  branch;
    repeat (match goal with x : St |- _ => destruct x as [? ?] end);
    repeat (match goal with
            | Hi : init_model _ _ _ _ _ _ = _ |- _ =>
                apply init_model_run in Hi as [? [?|(? & ? & ? & ?)]];
                cbn in *; subst
            end);
    cbn; (do 4 (split; [done|]));
    first
      [ solve [exists [], []; fin_frame]
      | solve [eexists [], [_]; fin_frame]
      | solve [eexists [], [_; _]; fin_frame]
      | solve [exists [EvDel; EvTorchGc], []; fin_frame]
      | solve [eexists [EvDel; EvTorchGc], [_]; fin_frame]
      | solve [eexists [EvDel; EvTorchGc], [_; _]; fin_frame] ].
Qed.

(** *** Reconciliation of the auxiliary path *)

(** X9: turning ControlNet on or off (lines 139-160).  The descriptor
    supports ControlNet, a backend is held, the method-change branch does
    not apply and the request's flag differs from the manager's.  The flag
    and the method are first set to the request's; the backend is then
    rebuilt for the same model with the old backend's vae, text encoders and
    unet handed to the constructor, the old backend not being released
    first.  If the rebuild returns, its backend replaces the old one; if it
    raises, the error comes out and the old backend stays held under the
    new flag and method. *)
Theorem controlnet_flag_flip (m : ModelManager) (log : list Event) (info : ModelInfo.t)
    (b : Backend.t) (config : InpaintRequest.t) (r : Res Backend.t) (log' : list Event) :
  available_models m !! name m = Some info →
  ModelInfo.support_controlnet info = true →
  model m = Some b →
  enable_controlnet m && truthy (InpaintRequest.controlnet_method config)
    && bool_decide (controlnet_method m ≠ InpaintRequest.controlnet_method config) = false →
  enable_controlnet m ≠ InpaintRequest.enable_controlnet config →
  let m1 := set_controlnet_method (InpaintRequest.controlnet_method config)
              (set_enable_controlnet (InpaintRequest.enable_controlnet config) m) in
  let pipe_components :=
    mkPipeComponents (Pipeline.vae (Backend.model b))
                     (Pipeline.text_encoder (Backend.model b))
                     (Pipeline.unet (Backend.model b))
                     (Pipeline.text_encoder_2 (Backend.model b)) in
  init_model E (name m) (switch_mps_device E (name m) (device m))
             (Some pipe_components) (kwargs m) (m1, log) = (r, (m1, log')) →
  switch_controlnet_method E config (m, log)
  = match r with
    | Ok b' => (Ok tt, (set_model (Some b') m1, log'))
    | Raise e => (Raise e, (m1, log'))
    end.
Proof.
  destruct m as [A dev kw cat en meth mdl].
  unfold set_model, set_controlnet_method, set_enable_controlnet. cbn -[init_model].
  intros Hinfo Hsup -> Hc Hflip Hinit.
  unfold switch_controlnet_method. run.
  unfold set_model, set_controlnet_method, set_enable_controlnet. cbn -[init_model].
  rewrite Hinfo. cbn -[init_model]. rewrite Hsup. cbn -[init_model]. rewrite Hc.
  rewrite bool_decide_eq_true_2 by done. cbn -[init_model].
  rewrite Hinit. by destruct r.
Qed.

(** Once the manager's flag and method are the request's, the auxiliary
    step does nothing, whether or not the held backend matches the flag. *)
Lemma controlnet_settled_noop (m : ModelManager) (log : list Event)
    (info : ModelInfo.t) (config : InpaintRequest.t) :
  available_models m !! name m = Some info →
  controlnet_settled m config →
  switch_controlnet_method E config (m, log) = (Ok tt, (m, log)).
Proof.
  destruct m as [A dev kw cat en meth mdl]. unfold controlnet_settled. cbn.
  intros Hinfo [-> ->]. unfold switch_controlnet_method. run. cbn.
  rewrite Hinfo. cbn. destruct (ModelInfo.support_controlnet info); [|done]. cbn.
  rewrite (bool_decide_eq_false_2 (InpaintRequest.controlnet_method config
                                   ≠ InpaintRequest.controlnet_method config))
    by (intros Hn; by apply Hn).
  rewrite !andb_false_r.
  rewrite bool_decide_eq_false_2 by (intros Hn; by apply Hn). done.
Qed.

(** X10: a failed flip is not retried.  In the situation of X9, when the
    rebuild raises, the same request made again returns at once: no
    constructor is called, and the manager goes on holding the old backend
    under the flag it could not apply. *)
Theorem controlnet_failed_flip_not_retried (m : ModelManager) (log : list Event)
    (info : ModelInfo.t) (b : Backend.t) (config : InpaintRequest.t) (e : Exn)
    (s' : St) :
  available_models m !! name m = Some info →
  ModelInfo.support_controlnet info = true →
  model m = Some b →
  enable_controlnet m && truthy (InpaintRequest.controlnet_method config)
    && bool_decide (controlnet_method m ≠ InpaintRequest.controlnet_method config) = false →
  enable_controlnet m ≠ InpaintRequest.enable_controlnet config →
  switch_controlnet_method E config (m, log) = (Raise e, s') →
  model s'.1 = Some b
  ∧ enable_controlnet s'.1 = InpaintRequest.enable_controlnet config
  ∧ switch_controlnet_method E config s' = (Ok tt, s').
Proof.
  destruct m as [A dev kw cat en meth mdl]. cbn -[init_model].
  intros Hinfo Hsup -> Hc Hflip.
  unfold switch_controlnet_method at 1. run.
  unfold set_model, set_controlnet_method, set_enable_controlnet. cbn -[init_model].
  rewrite Hinfo. cbn -[init_model]. rewrite Hsup. cbn -[init_model]. rewrite Hc.
  rewrite bool_decide_eq_true_2 by done. cbn -[init_model].
  destruct (init_model _ _ _ _ _ _) as [[b'|e'] [m1 log1]] eqn:Hinit; [done|].
  apply init_model_self in Hinit. cbn in Hinit. subst m1.
  intros [= -> <-]. cbn. split; [done|]. split; [done|].
  by apply (controlnet_settled_noop _ _ info).
Qed.

(** Where one run of the auxiliary step leaves the manager: as it found it,
    or with the request's method and either the request's flag or, after
    the method-change branch, ControlNet on and a method that was not the
    request's before. *)
Lemma switch_controlnet_method_cases config m log r s' :
  switch_controlnet_method E config (m, log) = (r, s') →
  s' = (m, log)
  ∨ (name s'.1 = name m
     ∧ available_models s'.1 = available_models m
     ∧ is_Some (available_models m !! name m)
     ∧ controlnet_method s'.1 = InpaintRequest.controlnet_method config
     ∧ (enable_controlnet s'.1 = InpaintRequest.enable_controlnet config
        ∨ controlnet_method m ≠ InpaintRequest.controlnet_method config)).
Proof.
  destruct m as [A dev kw cat en meth mdl].
  unfold switch_controlnet_method. run.
  unfold set_model, set_controlnet_method, set_enable_controlnet. cbn -[init_model].
  destruct (cat !! A) as [info|] eqn:Hinfo; cbn -[init_model];
    [|intros [= <- <-]; by left].
  destruct (ModelInfo.support_controlnet info); cbn -[init_model];
    [|intros [= <- <-]; by left].
  destruct (en && truthy (InpaintRequest.controlnet_method config)
            && bool_decide (meth ≠ InpaintRequest.controlnet_method config)) eqn:Hc.
  - apply andb_prop in Hc as [_ Hneq]. apply bool_decide_eq_true_1 in Hneq.
    intros H. right. branch; cbn; by eauto 10.
  - cbn -[init_model].
    destruct (bool_decide (en ≠ InpaintRequest.enable_controlnet config));
      cbn -[init_model]; [|intros [= <- <-]; by left].
    intros H. right. branch; settle; cbn; by eauto 10.
Qed.

(** X11: the auxiliary step settles within two runs.  Whatever the manager
    and the request, and whatever the runs return or raise, after the step
    has run twice on the same request a third run changes neither the
    manager nor the log. *)
Theorem controlnet_settles_in_two (config : InpaintRequest.t) (s : St) :
  let s1 := (switch_controlnet_method E config s).2 in
  let s2 := (switch_controlnet_method E config s1).2 in
  (switch_controlnet_method E config s2).2 = s2.
Proof.
  cbn zeta. destruct s as [m log].
  destruct (switch_controlnet_method E config (m, log)) as [r1 [m1 log1]] eqn:H1.
  cbn [snd].
  pose proof (switch_controlnet_method_cases _ _ _ _ _ H1) as [Heq|Hc1].
  { injection Heq as -> ->. rewrite H1. cbn [snd]. by rewrite H1. }
  destruct Hc1 as (Hn1 & Ha1 & Hi1 & Hm1 & _). cbn [fst] in *.
  destruct (switch_controlnet_method E config (m1, log1)) as [r2 [m2 log2]] eqn:H2.
  cbn [snd].
  pose proof (switch_controlnet_method_cases _ _ _ _ _ H2) as [Heq|Hc2].
  { injection Heq as -> ->. by rewrite H2. }
  destruct Hc2 as (Hn2 & Ha2 & [info Hi2] & Hm2 & [He2|Hne2]); [|done]. cbn [fst] in *.
  rewrite (controlnet_settled_noop m2 log2 info config); [done| |done].
  by rewrite Ha2, Hn2.
Qed.

(** The method-change branch, run on its own. *)
Lemma method_change_step (m : ModelManager) (log : list Event) (info : ModelInfo.t)
    (b : Backend.t) (config : InpaintRequest.t) :
  available_models m !! name m = Some info →
  ModelInfo.support_controlnet info = true →
  enable_controlnet m = true →
  model m = Some b →
  truthy (InpaintRequest.controlnet_method config) = true →
  controlnet_method m ≠ InpaintRequest.controlnet_method config →
  switch_controlnet_method E config (m, log)
  = (Ok tt, (set_model (Some (Backend.switch_controlnet_method
                                (InpaintRequest.controlnet_method config) b))
               (set_controlnet_method (InpaintRequest.controlnet_method config) m),
             log ++ [EvSwitchMethod (InpaintRequest.controlnet_method config)])).
Proof.
  intros Hinfo Hsup Hen Hb Htruthy Hneq.
  unfold switch_controlnet_method. run.
  rewrite Hinfo. red_monad. rewrite Hsup, Hen, Htruthy. cbn [negb andb].
  rewrite bool_decide_eq_true_2 by done. red_monad.
  unfold set_controlnet_method at 1. cbn [model]. by rewrite Hb.
Qed.

(** X12: a flag change that came with a method change is deferred, not
    dropped.  When ControlNet is on and a request both names another method
    and turns ControlNet off, the first run of the step only switches the
    method; the same request run again takes the flag branch: ControlNet is
    turned off by a rebuild that is handed the sub-models of the held
    backend, and the rebuilt backend replaces it when the rebuild
    returns. *)
Theorem controlnet_flag_change_deferred (m : ModelManager) (log : list Event)
    (info : ModelInfo.t) (b : Backend.t) (config : InpaintRequest.t)
    (r : Res Backend.t) (log' : list Event) :
  available_models m !! name m = Some info →
  ModelInfo.support_controlnet info = true →
  enable_controlnet m = true →
  model m = Some b →
  truthy (InpaintRequest.controlnet_method config) = true →
  controlnet_method m ≠ InpaintRequest.controlnet_method config →
  InpaintRequest.enable_controlnet config = false →
  let method := InpaintRequest.controlnet_method config in
  let m2 := set_model (Some (Backend.switch_controlnet_method method b))
              (set_controlnet_method method (set_enable_controlnet false m)) in
  let pipe_components :=
    mkPipeComponents (Pipeline.vae (Backend.model b))
                     (Pipeline.text_encoder (Backend.model b))
                     (Pipeline.unet (Backend.model b))
                     (Pipeline.text_encoder_2 (Backend.model b)) in
  init_model E (name m) (switch_mps_device E (name m) (device m))
             (Some pipe_components) (kwargs m) (m2, log ++ [EvSwitchMethod method])
  = (r, (m2, log')) →
  switch_controlnet_method E config (switch_controlnet_method E config (m, log)).2
  = match r with
    | Ok b' => (Ok tt, (set_model (Some b') m2, log'))
    | Raise e => (Raise e, (m2, log'))
    end.
Proof.
  intros Hinfo Hsup Hen Hb Htruthy Hneq Hoff method m2 pc Hinit.
  rewrite (method_change_step m log info b config) by done. cbn [snd].
  destruct m as [A dev kw cat en meth mdl]. cbn in Hinfo, Hen, Hb. subst en mdl.
  unfold m2, method, pc, set_model, set_controlnet_method, set_enable_controlnet,
    Backend.switch_controlnet_method in *.
  cbn -[init_model] in *.
  unfold switch_controlnet_method. run.
  unfold set_model, set_controlnet_method, set_enable_controlnet. cbn -[init_model].
  rewrite Hinfo. cbn -[init_model]. rewrite Hsup, Htruthy, Hoff. cbn -[init_model].
  rewrite (bool_decide_eq_false_2 (InpaintRequest.controlnet_method config
                                   ≠ InpaintRequest.controlnet_method config))
    by (intros Hn; by apply Hn).
  cbn -[init_model]. rewrite bool_decide_eq_true_2 by done. cbn -[init_model].
  rewrite Hinit. by destruct r.
Qed.

(** X18: when the auxiliary step does anything.  On a manager that holds a
    backend for a catalog model, the step returns having changed nothing
    and called nothing exactly when the descriptor does not support
    ControlNet, or the request's flag is the manager's and either
    ControlNet is off, or the request names no method, or it names the
    current one.  In particular a requested method is ignored while
    ControlNet is off on both sides. *)
Theorem controlnet_step_noop_iff (m : ModelManager) (log : list Event)
    (info : ModelInfo.t) (b : Backend.t) (config : InpaintRequest.t) :
  available_models m !! name m = Some info →
  model m = Some b →
  switch_controlnet_method E config (m, log) = (Ok tt, (m, log))
  ↔ (ModelInfo.support_controlnet info = false
     ∨ (enable_controlnet m = InpaintRequest.enable_controlnet config
        ∧ (enable_controlnet m = false
           ∨ truthy (InpaintRequest.controlnet_method config) = false
           ∨ controlnet_method m = InpaintRequest.controlnet_method config))).
Proof.
  destruct m as [A dev kw cat en meth mdl]. cbn. intros Hinfo ->.
  unfold switch_controlnet_method. run.
  unfold set_model, set_controlnet_method, set_enable_controlnet. cbn -[init_model].
  rewrite Hinfo. cbn -[init_model].
  destruct (ModelInfo.support_controlnet info); cbn -[init_model]; [|by split; auto].
  destruct (en && truthy (InpaintRequest.controlnet_method config)
            && bool_decide (meth ≠ InpaintRequest.controlnet_method config)) eqn:Hc;
    cbn -[init_model].
  - apply andb_prop in Hc as [Hc Hneq]. apply andb_prop in Hc as [-> Htruthy].
    apply bool_decide_eq_true_1 in Hneq. split.
    + intros H. inversion H. congruence.
    + intros [?|[_ [?|[?|?]]]]; congruence.
  - destruct (bool_decide (en ≠ InpaintRequest.enable_controlnet config)) eqn:Hflip;
      cbn -[init_model].
    + apply bool_decide_eq_true_1 in Hflip. split; [|by intros [?|[? _]]].
      destruct (init_model _ _ _ _ _ _) as [[b'|e'] [m1 log1]] eqn:Hinit;
        apply init_model_self in Hinit; cbn in Hinit; subst m1; cbn;
        intros [= ? ?]; congruence.
    + apply bool_decide_eq_false_1 in Hflip.
      assert (Heq : en = InpaintRequest.enable_controlnet config)
        by (destruct en, (InpaintRequest.enable_controlnet config); try done;
            by destruct Hflip).
      split; [intros _|done]. right. split; [done|].
      destruct en; [|by left]. right.
      destruct (truthy (InpaintRequest.controlnet_method config)); [|by left]. right.
      cbn in Hc. apply bool_decide_eq_false_1 in Hc.
      destruct (decide (meth = InpaintRequest.controlnet_method config)); [done|].
      by destruct Hc.
Qed.

(** *** The whole call *)

(** X13: a manager that holds no backend (as X5 leaves it) cannot serve.
    Every inference call on it raises before any collaborator is called,
    and the manager still holds no backend: [AttributeError] on
    [self.model] when the manager's name is in the catalog, [KeyError] on
    the catalog lookup of line 125 when it is not (as after a switch to an
    unknown name). *)
Theorem call_without_backend (image mask : ndarray E) (config : InpaintRequest.t)
    (m : ModelManager) (log : list Event) :
  model m = None →
  ∃ m', __call__ E image mask config (m, log)
        = (Raise (match available_models m !! name m with
                  | Some _ => AttributeError "model"
                  | None => KeyError (name m)
                  end), (m', log))
        ∧ model m' = None.
Proof.
  destruct m as [A dev kw cat en meth mdl]. cbn. intros ->.
  unfold __call__, switch_controlnet_method, enable_disable_freeu. run.
  unfold set_model, set_controlnet_method, set_enable_controlnet. cbn -[init_model].
  destruct (cat !! A) as [info|] eqn:Hinfo; cbn -[init_model]; [|by eexists].
  destruct (ModelInfo.support_controlnet info); cbn -[init_model]; [|by eexists].
  destruct (en && truthy (InpaintRequest.controlnet_method config)
            && bool_decide (meth ≠ InpaintRequest.controlnet_method config));
    cbn -[init_model]; [by eexists|].
  destruct (bool_decide (en ≠ InpaintRequest.enable_controlnet config));
    cbn -[init_model]; by eexists.
Qed.

Lemma switch_controlnet_method_keeps config m log r s' :
  switch_controlnet_method E config (m, log) = (r, s') →
  device s'.1 = device m
  ∧ kwargs s'.1 = kwargs m
  ∧ (is_Some (model m) → is_Some (model s'.1)).
Proof.
  destruct m as [A dev kw cat en meth mdl].
  unfold switch_controlnet_method. run.
  unfold set_model, set_controlnet_method, set_enable_controlnet. cbn -[init_model].
  intros H. branch; settle; cbn; by eauto.
Qed.

(** X14: an inference call never drops the backend and never moves the
    manager to another model.  Whatever it returns or raises, a manager
    that held a backend holds one afterwards, and its name, catalog, device
    and options are as before. *)
Theorem call_keeps_backend (image mask : ndarray E) (config : InpaintRequest.t)
    (m : ModelManager) (log : list Event) (r : Res (ndarray E)) (s' : St) :
  is_Some (model m) →
  __call__ E image mask config (m, log) = (r, s') →
  is_Some (model s'.1)
  ∧ name s'.1 = name m
  ∧ available_models s'.1 = available_models m
  ∧ device s'.1 = device m
  ∧ kwargs s'.1 = kwargs m.
Proof.
  intros Hheld Hrun.
  destruct (call_frame E _ _ _ _ _ _ Hrun) as (Hn & Ha & _).
  cut (is_Some (model s'.1) ∧ device s'.1 = device m ∧ kwargs s'.1 = kwargs m);
    [by intros (? & ? & ?)|].
  clear Hn Ha. revert Hrun. unfold __call__. unfold mbind, M_bind.
  destruct (switch_controlnet_method E config (m, log)) as [[[]|e1] s1] eqn:H1;
    pose proof (switch_controlnet_method_keeps _ _ _ _ _ H1) as (Hd1 & Hk1 & Hm1);
    specialize (Hm1 Hheld).
  2:{ by intros [= <- <-]. }
  destruct (enable_disable_freeu config s1) as [[[]|e2] s2] eqn:H2;
    pose proof (enable_disable_freeu_frame _ _ _ _ H2) as (Hs2 & Hh2 & _).
  all: unfold settings in Hs2; injection Hs2 as _ Hd2 Hk2 _ _ _.
  all: assert (Hm2 : is_Some (model s2.1))
      by (unfold held_adapters in Hh2;
          destruct (model s2.1), (model s1.1); by try destruct Hm1).
  2:{ intros [= <- <-]. by rewrite Hd2, Hk2. }
  destruct (enable_disable_lcm_lora E config s2) as [[[]|e3] s3] eqn:H3;
    pose proof (enable_disable_lcm_lora_frame E _ _ _ _ H3) as (Hs3 & Hh3 & _).
  all: unfold settings in Hs3; injection Hs3 as _ Hd3 Hk3 _ _ _.
  all: assert (Hm3 : is_Some (model s3.1))
      by (unfold held_freeu in Hh3;
          destruct (model s3.1), (model s2.1); by try destruct Hm2).
  2:{ intros [= <- <-]. by rewrite Hd3, Hk3, Hd2, Hk2. }
  run. intros Hrun.
  assert (s'.1 = s3.1) as ->.
  { destruct (model s3.1); [|by simplify_eq]. red_monad.
    destruct (forward E s3.2 _ image mask config); by simplify_eq. }
  by rewrite Hd3, Hk3, Hd2, Hk2.
Qed.

(** *** Tuning and adapter *)

(** X15: the tuning step and the adapter step do not interfere.  Run in
    either order, on any requests and from any state, they leave the same
    manager. *)
Theorem tuning_adapter_commute (c1 c2 : InpaintRequest.t) (s : St) :
  (enable_disable_lcm_lora E c2 (enable_disable_freeu c1 s).2).2.1
  = (enable_disable_freeu c1 (enable_disable_lcm_lora E c2 s).2).2.1.
Proof.
  destruct s as [[A dev kw cat en meth mdl] log].
  unfold enable_disable_lcm_lora, enable_disable_freeu. run.
  unfold set_model, Pipeline.get_list_adapters. cbn.
  destruct mdl as [b|]; destruct (cat !! A) as [info|] eqn:Hinfo;
    destruct (ModelInfo.support_lcm_lora info) eqn:Hlcm || idtac.
  all: try destruct (Backend.device b =? "mps")%string eqn:Hdev.
  all: try destruct (ModelInfo.support_freeu info) eqn:Hfreeu.
  all: try destruct (InpaintRequest.sd_freeu c1) eqn:Hc1.
  all: try destruct (InpaintRequest.sd_lcm_lora c2) eqn:Hc2.
  all: try destruct (Pipeline.adapters (Backend.model b)) as [|a l] eqn:Had.
  all: do 8 (cbn -[loads Pipeline.load_lora_weights];
             rewrite ?Hinfo, ?Hdev, ?Hlcm, ?Hfreeu, ?Hc1, ?Hc2, ?Had).
  all: try done.
  all: rewrite ?loads_app, !loads_cons; cbn -[loads]; rewrite ?Nat.add_0_r.
  all: unfold Pipeline.load_lora_weights.
  all: destruct (load_lora_raises E (loads log) _ _).
  all: do 4 (cbn -[loads]; rewrite ?Hinfo, ?Hdev, ?Hlcm, ?Hfreeu, ?Hc1, ?Hc2, ?Had).
  all: done.
Qed.

(** One run of the adapter step once an adapter is loaded: the adapter is
    enabled or disabled as requested, and stays loaded. *)
Lemma enable_disable_lcm_lora_loaded (m : ModelManager) (log : list Event)
    (info : ModelInfo.t) (b : Backend.t) (config : InpaintRequest.t) :
  available_models m !! name m = Some info →
  ModelInfo.support_lcm_lora info = true →
  model m = Some b →
  Pipeline.adapters (Backend.model b) ≠ [] →
  ∃ b',
    enable_disable_lcm_lora E config (m, log)
    = (Ok tt, (set_model (Some b') m,
               log ++ [EvGetListAdapters;
                       if InpaintRequest.sd_lcm_lora config
                       then EvEnableLora else EvDisableLora]))
    ∧ Backend.lcm_lora_id b' = Backend.lcm_lora_id b
    ∧ Pipeline.adapters (Backend.model b') = Pipeline.adapters (Backend.model b)
    ∧ Pipeline.lora_enabled (Backend.model b') = InpaintRequest.sd_lcm_lora config.
Proof.
  destruct m as [A dev kw cat en meth mdl]. cbn. intros Hinfo Hsup -> Hld.
  unfold enable_disable_lcm_lora. run.
  unfold set_model. cbn. rewrite Hinfo. cbn. rewrite Hsup. cbn.
  unfold Pipeline.get_list_adapters.
  destruct (Pipeline.adapters (Backend.model b)) as [|a l] eqn:Had; [done|].
  destruct (InpaintRequest.sd_lcm_lora config); cbn; rewrite <- app_assoc;
    by eexists.
Qed.

(** One run of the adapter step while no adapter is loaded and none is
    requested. *)
Lemma enable_disable_lcm_lora_idle (m : ModelManager) (log : list Event)
    (info : ModelInfo.t) (b : Backend.t) (config : InpaintRequest.t) :
  available_models m !! name m = Some info →
  ModelInfo.support_lcm_lora info = true →
  model m = Some b →
  Pipeline.adapters (Backend.model b) = [] →
  InpaintRequest.sd_lcm_lora config = false →
  enable_disable_lcm_lora E config (m, log) = (Ok tt, (m, log ++ [EvGetListAdapters])).
Proof.
  destruct m as [A dev kw cat en meth mdl]. cbn. intros Hinfo Hsup -> Hun Hreq.
  unfold enable_disable_lcm_lora. run.
  unfold set_model. cbn. rewrite Hinfo. cbn. rewrite Hsup. cbn.
  unfold Pipeline.get_list_adapters. by rewrite Hun, Hreq.
Qed.

Lemma adapter_requests_snoc configs config :
  adapter_requests (configs ++ [config])
  = (adapter_requests configs + (if InpaintRequest.sd_lcm_lora config then 1 else 0))%nat.
Proof.
  unfold adapter_requests. rewrite filter_app, length_app. f_equal.
  by destruct (InpaintRequest.sd_lcm_lora config) eqn:Hreq; cbn; rewrite Hreq.
Qed.

Lemma load_returns_within_S first n lora_id local :
  load_returns_within E first (S n) lora_id local
  = load_returns_within E first n lora_id local
    || match load_lora_raises E (first + n) lora_id local with
       | None => true
       | Some _ => false
       end.
Proof.
  unfold load_returns_within. rewrite seq_S, existsb_app. cbn. by rewrite orb_false_r.
Qed.

Lemma load_returns_within_first first n lora_id local :
  load_lora_raises E first lora_id local = None →
  load_returns_within E first (S n) lora_id local = true.
Proof.
  intros Hload. unfold load_returns_within. cbn. by rewrite Nat.add_0_r, Hload.
Qed.

Lemma adapter_requests_0 configs :
  existsb InpaintRequest.sd_lcm_lora configs = false → adapter_requests configs = 0%nat.
Proof.
  unfold adapter_requests. induction configs as [|config configs IH]; [done|].
  cbn. intros [Hreq Hrest]%orb_false_iff. rewrite Hreq. cbn. by apply IH.
Qed.

Lemma adapter_requests_S configs :
  existsb InpaintRequest.sd_lcm_lora configs = true →
  ∃ n, adapter_requests configs = S n.
Proof.
  unfold adapter_requests. induction configs as [|config configs IH]; [done|].
  cbn. destruct (InpaintRequest.sd_lcm_lora config) eqn:Hreq; cbn.
  - intros _. by eexists.
  - done.
Qed.

(** X16: the adapter over any run of adapter steps, from a backend with no
    adapter loaded.  Each step that asks for the adapter while it is
    unloaded attempts a load.  The adapter ends up loaded, under the
    backend's identifier and only once in the list, exactly when one of
    these attempts returned, and it is then enabled or disabled as the last
    request says; a request that disables it never unloads it.  Otherwise
    the pipeline is as it was.  In particular, when the first load attempted
    returns, the adapter is loaded exactly when some request of the run
    asked for it. *)
Theorem adapter_last_write_wins (m : ModelManager) (log : list Event)
    (info : ModelInfo.t) (b : Backend.t) (configs : list InpaintRequest.t) :
  available_models m !! name m = Some info →
  ModelInfo.support_lcm_lora info = true →
  model m = Some b →
  Pipeline.adapters (Backend.model b) = [] →
  let lora_id := Backend.lcm_lora_id b in
  let local := is_local_files_only E in
  let final := held_lora (run_steps (enable_disable_lcm_lora E) configs (m, log)).1 in
  final
  = Some (if load_returns_within E (loads log) (adapter_requests configs) lora_id local
          then ([lora_id], default false (last (InpaintRequest.sd_lcm_lora <$> configs)))
          else ([], Pipeline.lora_enabled (Backend.model b)))
  ∧ (load_lora_raises E (loads log) lora_id local = None →
     final
     = Some (if existsb InpaintRequest.sd_lcm_lora configs
             then ([lora_id],
                   default false (last (InpaintRequest.sd_lcm_lora <$> configs)))
             else ([], Pipeline.lora_enabled (Backend.model b)))).
Proof.
  intros Hinfo Hsup Hb Hun lora_id local final.
  assert (Hfinal :
    final
    = Some (if load_returns_within E (loads log) (adapter_requests configs) lora_id local
            then ([lora_id],
                  default false (last (InpaintRequest.sd_lcm_lora <$> configs)))
            else ([], Pipeline.lora_enabled (Backend.model b)))).
  2:{ split; [done|]. intros Hload. rewrite Hfinal.
      destruct (existsb InpaintRequest.sd_lcm_lora configs) eqn:Hany.
      - destruct (adapter_requests_S configs Hany) as [n ->].
        by rewrite load_returns_within_first.
      - by rewrite adapter_requests_0. }
  subst final lora_id local.
  cut (∃ b' log',
         run_steps (enable_disable_lcm_lora E) configs (m, log)
         = (set_model (Some b') m, log')
         ∧ Backend.lcm_lora_id b' = Backend.lcm_lora_id b
         ∧ if load_returns_within E (loads log) (adapter_requests configs)
                (Backend.lcm_lora_id b) (is_local_files_only E)
           then Pipeline.adapters (Backend.model b') = [Backend.lcm_lora_id b]
                ∧ Pipeline.lora_enabled (Backend.model b')
                  = default false (last (InpaintRequest.sd_lcm_lora <$> configs))
           else Pipeline.adapters (Backend.model b') = []
                ∧ Pipeline.lora_enabled (Backend.model b')
                  = Pipeline.lora_enabled (Backend.model b)
                ∧ loads log' = (loads log + adapter_requests configs)%nat).
  { intros (b' & log' & -> & _ & Hst). cbn [fst]. unfold held_lora.
    replace (model (set_model (Some b') m)) with (Some b') by (by destruct m).
    cbn. destruct (load_returns_within _ _ _ _ _).
    - by destruct Hst as [-> ->].
    - by destruct Hst as (-> & -> & _). }
  induction configs as [|config configs IH] using rev_ind.
  - exists b, log. cbn. rewrite Nat.add_0_r.
    split; [by destruct m; cbn in *; subst|done].
  - destruct IH as (b1 & log1 & Hrun & Hid & Hst).
    assert (Hsnoc : run_steps (enable_disable_lcm_lora E) (configs ++ [config]) (m, log)
                    = (enable_disable_lcm_lora E config
                         (run_steps (enable_disable_lcm_lora E) configs (m, log))).2)
      by (unfold run_steps; by rewrite foldl_app).
    rewrite Hsnoc, Hrun. clear Hsnoc Hrun.
    assert (Hinfo1 : available_models (set_model (Some b1) m)
                     !! name (set_model (Some b1) m) = Some info) by (by destruct m).
    assert (Hb1 : model (set_model (Some b1) m) = Some b1) by (by destruct m).
    assert (Hset : ∀ b2, set_model (Some b2) (set_model (Some b1) m)
                         = set_model (Some b2) m) by (by destruct m).
    rewrite adapter_requests_snoc, fmap_app.
    change (InpaintRequest.sd_lcm_lora <$> [config])
      with [InpaintRequest.sd_lcm_lora config].
    rewrite last_snoc. cbn [default].
    destruct (load_returns_within E (loads log) (adapter_requests configs) _ _) eqn:Hret.
    + destruct Hst as [Had Hen].
      destruct (enable_disable_lcm_lora_loaded (set_model (Some b1) m) log1 info b1 config)
        as (b2 & -> & Hid2 & Had2 & Hen2); [done|done|done|by rewrite Had|].
      exists b2. eexists. cbn [snd]. rewrite Hset. split; [done|].
      split; [congruence|].
      destruct (InpaintRequest.sd_lcm_lora config).
      * rewrite Nat.add_1_r, load_returns_within_S, Hret. cbn.
        split; [by rewrite Had2|exact Hen2].
      * rewrite Nat.add_0_r, Hret. split; [by rewrite Had2|exact Hen2].
    + destruct Hst as (Had & Hen & Hloads).
      destruct (InpaintRequest.sd_lcm_lora config) eqn:Hreq.
      * rewrite (enable_disable_lcm_lora_load E (set_model (Some b1) m) log1 info b1 config)
          by done.
        rewrite Nat.add_1_r, load_returns_within_S, Hret, Hloads, Hid. cbn [orb].
        unfold Pipeline.load_lora_weights.
        destruct (load_lora_raises E _ _ _) as [e|]; cbn [snd].
        -- exists b1. eexists. split; [done|]. split; [done|].
           split; [done|]. split; [done|].
           rewrite loads_app, !loads_cons, Hloads. change (loads []) with 0%nat.
           cbn -[loads]. lia.
        -- eexists. eexists. rewrite Hset. split; [done|]. split; [done|].
           cbn. by rewrite Had.
      * rewrite (enable_disable_lcm_lora_idle (set_model (Some b1) m) log1 info b1 config)
          by done.
        exists b1. eexists. cbn [snd]. split; [done|]. split; [done|].
        rewrite Nat.add_0_r, Hret. split; [done|]. split; [done|].
        rewrite loads_app, !loads_cons, Hloads. change (loads []) with 0%nat.
           cbn -[loads]. lia.
Qed.

(** X17: when the tuning step calls the pipeline.  On a manager that holds
    a backend for a catalog model, the step makes no call and changes
    nothing exactly when the backend's device is "mps" or the descriptor
    does not support tuning, whatever the request; otherwise it makes one
    call, enable or disable as requested. *)
Theorem tuning_step_calls (m : ModelManager) (log : list Event) (info : ModelInfo.t)
    (b : Backend.t) (config : InpaintRequest.t) :
  available_models m !! name m = Some info →
  model m = Some b →
  let skipped := (Backend.device b =? "mps")%string || negb (ModelInfo.support_freeu info) in
  (skipped = true → enable_disable_freeu config (m, log) = (Ok tt, (m, log)))
  ∧ (skipped = false →
     (enable_disable_freeu config (m, log)).2.2
     = log ++ [if InpaintRequest.sd_freeu config
               then EvEnableFreeu (InpaintRequest.sd_freeu_config config)
               else EvDisableFreeu]).
Proof.
  destruct m as [A dev kw cat en meth mdl]. cbn. intros Hinfo ->.
  unfold enable_disable_freeu. run. unfold set_model. cbn.
  destruct (Backend.device b =? "mps")%string; cbn; [by split|].
  rewrite Hinfo. cbn.
  destruct (ModelInfo.support_freeu info); cbn; [|by split].
  split; [done|]. intros _. by destruct (InpaintRequest.sd_freeu config).
Qed.

End More.

(** ** The theorems on the sample deployment *)

(** C1 on the sample: the build of "broken" fails, the manager is back at
    "sd-v1" with a rebuilt backend. *)
Lemma switch_fail_atomic_witness :
  ∃ b_A log_A,
    switch Sample.env "broken" (Sample.at_sd_v1.1, Sample.at_sd_v1.2)
    = (Raise (ExternalError 2), (set_model (Some b_A) Sample.at_sd_v1.1, log_A))
    ∧ name (set_model (Some b_A) Sample.at_sd_v1.1) = "sd-v1".
Proof.
  eexists _, _. split.
  - eapply (switch_fail_atomic Sample.env _ _ "broken" Sample.broken).
    + vm_compute. discriminate.
    + vm_compute. reflexivity.
    + intros H. discriminate H.
    + vm_compute. reflexivity.
    + vm_compute. reflexivity.
    + vm_compute. reflexivity.
  - reflexivity.
Defined.

(** C2 on the sample: the name is overwritten and [KeyError] comes out. *)
Lemma switch_unknown_name_KeyError_witness :
  switch Sample.env "nope" (Sample.at_sd_v1.1, Sample.at_sd_v1.2)
  = (Raise (KeyError "nope"), (set_name "nope" Sample.at_sd_v1.1, Sample.at_sd_v1.2))
  ∧ name (set_name "nope" Sample.at_sd_v1.1) ≠ name Sample.at_sd_v1.1.
Proof.
  split.
  - apply (switch_unknown_name_KeyError Sample.env).
    + vm_compute. discriminate.
    + vm_compute. reflexivity.
  - vm_compute. discriminate.
Defined.

(** C3, as stated, fails in each operation, and each proviso of the amended
    statement is needed.  (1) A switch from "sdxl" to a model without
    ControlNet completes and keeps the method "canny", which the new
    descriptor does not list.  (2) A method pinned at construction is taken
    as it is, also under a descriptor that supports ControlNet and does not
    list it.  (3) Reconciliation takes over the method a request names,
    listed or not.  (4) A switch to a descriptor that supports ControlNet
    and lists no method raises [IndexError] at line 106 and leaves the
    manager under that descriptor with the method it had. *)
Lemma method_compatible_broken :
  (method_compatible Sample.at_sdxl.1 = true
   ∧ (switch Sample.env "lama" Sample.at_sdxl).1 = Ok tt
   ∧ name (switch Sample.env "lama" Sample.at_sdxl).2.1 = "lama"
   ∧ controlnet_method (switch Sample.env "lama" Sample.at_sdxl).2.1 = Some "canny"
   ∧ method_compatible (switch Sample.env "lama" Sample.at_sdxl).2.1 = false)
  ∧ (∃ m log,
       __init__ Sample.env "sdxl" "cpu" (mkKwargs None (Some "scribble") []) []
       = (Ok m, log)
       ∧ available_models m !! name m = Some Sample.sdxl
       ∧ controlnet_method m = Some "scribble"
       ∧ method_compatible m = false
       ∧ method_compatible_if_supported m = false)
  ∧ (method_compatible Sample.at_sdxl_controlnet.1 = true
     ∧ (switch_controlnet_method Sample.env
          (Sample.request true (Some "scribble") false false)
          Sample.at_sdxl_controlnet).1 = Ok tt
     ∧ method_compatible
         (switch_controlnet_method Sample.env
            (Sample.request true (Some "scribble") false false)
            Sample.at_sdxl_controlnet).2.1 = false
     ∧ method_compatible_if_supported
         (switch_controlnet_method Sample.env
            (Sample.request true (Some "scribble") false false)
            Sample.at_sdxl_controlnet).2.1 = false)
  ∧ (method_compatible Edge.at_sdxl.1 = true
     ∧ (switch Edge.env "unlisted" Edge.at_sdxl).1 = Raise IndexError
     ∧ available_models (switch Edge.env "unlisted" Edge.at_sdxl).2.1
       !! name (switch Edge.env "unlisted" Edge.at_sdxl).2.1 = Some Edge.unlisted
     ∧ controlnet_method (switch Edge.env "unlisted" Edge.at_sdxl).2.1 = Some "canny"
     ∧ method_compatible (switch Edge.env "unlisted" Edge.at_sdxl).2.1 = false
     ∧ method_compatible_if_supported (switch Edge.env "unlisted" Edge.at_sdxl).2.1
       = false).
Proof.
  split; [by vm_compute|]. split; [|split; by vm_compute].
  eexists _, _. split; [vm_compute; reflexivity|]. by vm_compute.
Qed.

(** C3, amended, on the sample: two switches between "sdxl" and "sd-v1"
    keep the method compatible where ControlNet is supported, and the
    switch from "sdxl" to "lama" leaves the method as it was. *)
Lemma method_compatible_where_supported_witness :
  method_compatible_if_supported (switch Sample.env "sd-v1" Sample.at_sdxl).2.1
  ∧ method_compatible_if_supported (switch Sample.env "sdxl" Sample.at_sd_v1).2.1
  ∧ controlnet_method (switch Sample.env "lama" Sample.at_sdxl).2.1
    = controlnet_method Sample.at_sdxl.1.
Proof.
  destruct (method_compatible_where_supported Sample.env)
    as (_ & Hswitch & _ & _ & _ & Hkept & _).
  split; [|split].
  - apply (Hswitch Sample.at_sdxl.1 Sample.at_sdxl.2 "sd-v1"
             (switch Sample.env "sd-v1" Sample.at_sdxl).1).
    + change (catalog_wf (dict_by_name (scan_models Sample.env))).
      apply dict_by_name_wf. repeat constructor; by intros ?.
    + vm_compute. exact I.
    + vm_compute. reflexivity.
  - apply (Hswitch Sample.at_sd_v1.1 Sample.at_sd_v1.2 "sdxl"
             (switch Sample.env "sdxl" Sample.at_sd_v1).1).
    + change (catalog_wf (dict_by_name (scan_models Sample.env))).
      apply dict_by_name_wf. repeat constructor; by intros ?.
    + vm_compute. exact I.
    + vm_compute. reflexivity.
  - apply (Hkept Sample.at_sdxl.1 Sample.at_sdxl.2 "lama" Sample.lama
             (switch Sample.env "lama" Sample.at_sdxl).1).
    + vm_compute. reflexivity.
    + reflexivity.
    + vm_compute. reflexivity.
Defined.

(** C4 on the sample: "sdxl" lists "canny" first. *)
Lemma first_compatible_method_default_witness :
  controlnet_method Sample.at_sdxl.1 = Some "canny"
  ∧ controlnet_method (switch Sample.env "sdxl" Sample.at_sd_v1).2.1 = Some "canny".
Proof.
  destruct (first_compatible_method_default Sample.env) as [Hinit Hswitch].
  split.
  - destruct (Hinit "sdxl" "cpu" Sample.no_options [] Sample.at_sdxl.1 Sample.at_sdxl.2
                Sample.sdxl) as (first & rest & Hcs & Hm).
    + vm_compute. reflexivity.
    + reflexivity.
    + vm_compute. reflexivity.
    + reflexivity.
    + injection Hcs as <- _. exact Hm.
  - destruct (Hswitch Sample.at_sd_v1.1 Sample.at_sd_v1.2 "sdxl" Sample.sdxl
                (switch Sample.env "sdxl" Sample.at_sd_v1).2.1
                (switch Sample.env "sdxl" Sample.at_sd_v1).2.2)
      as (first & rest & Hcs & _ & Hm).
    + vm_compute. reflexivity.
    + vm_compute. discriminate.
    + vm_compute. reflexivity.
    + reflexivity.
    + reflexivity.
    + injection Hcs as <- _. exact Hm.
Defined.



(** C6 on the sample: the forward pass comes last and its output is cast. *)
Lemma call_reconciles_then_forwards_witness :
  ∃ l1 l2 l3,
    (__call__ Sample.env [300; 7]%Z [255]%Z (Sample.request false None true true)
       Sample.at_sd_v1).2.2
    = Sample.at_sd_v1.2 ++ l1 ++ l2 ++ l3
      ++ [EvForward (Sample.request false None true true)]
    ∧ (__call__ Sample.env [300; 7]%Z [255]%Z (Sample.request false None true true)
         Sample.at_sd_v1).1 = Ok [44; 7]%Z.
Proof.
  destruct (call_reconciles_then_forwards Sample.env [300; 7]%Z [255]%Z
              (Sample.request false None true true) Sample.at_sd_v1
              (Ok [44; 7]%Z)
              (__call__ Sample.env [300; 7]%Z [255]%Z (Sample.request false None true true)
                 Sample.at_sd_v1).2)
    as (l1 & l2 & l3 & l4 & Hlog & _ & _ & _ & _ & _ & _ & Hok).
  - vm_compute. reflexivity.
  - exists l1, l2, l3. rewrite <- (Hok _ eq_refl). split; [exact Hlog|].
    vm_compute. reflexivity.
Defined.

(** C7 on the sample: the class constructed and the backend returned, for
    the registered eraser, for "sdxl" with ControlNet on and off, for
    "sd-v1", for a model whose constructor raises, and for a model no class
    fits. *)
Lemma init_model_dispatch_witness :
  init_model Sample.env "lama" "cpu" None Sample.no_options
    (Sample.at_sd_v1.1, Sample.at_sd_v1.2)
  = (Ok (Backend.mk "cpu" None (Sample.fresh_pipeline None) "lcm-lora"),
     (Sample.at_sd_v1.1,
      Sample.at_sd_v1.2
      ++ [EvConstruct (Registered "LaMa") "cpu"
            (mkCtorKwargs Sample.no_options None Sample.lama false None)]))
  ∧ init_model Sample.env "sdxl" "cpu" None Sample.controlnet_on
      (Sample.at_sdxl_controlnet.1, Sample.at_sdxl_controlnet.2)
    = (Ok (Backend.mk "cpu" (Some "canny") (Sample.fresh_pipeline None) "lcm-lora"),
       (Sample.at_sdxl_controlnet.1,
        Sample.at_sdxl_controlnet.2
        ++ [EvConstruct ControlNet "cpu"
              (mkCtorKwargs Sample.controlnet_on None Sample.sdxl true (Some "canny"))]))
  ∧ init_model Sample.env "sdxl" "cpu" None Sample.no_options
      (Sample.at_sd_v1.1, Sample.at_sd_v1.2)
    = (Ok (Backend.mk "cpu" None (Sample.fresh_pipeline None) "lcm-lora"),
       (Sample.at_sd_v1.1,
        Sample.at_sd_v1.2
        ++ [EvConstruct SDXL "cpu"
              (mkCtorKwargs Sample.no_options None Sample.sdxl false None)]))
  ∧ init_model Sample.env "sd-v1" "cpu" None Sample.no_options
      (Sample.at_sd_v1.1, Sample.at_sd_v1.2)
    = (Ok (Backend.mk "cpu" None (Sample.fresh_pipeline None) "lcm-lora"),
       (Sample.at_sd_v1.1,
        Sample.at_sd_v1.2
        ++ [EvConstruct SD "cpu"
              (mkCtorKwargs Sample.no_options None Sample.sd_v1 false None)]))
  ∧ init_model Sample.env "broken" "cpu" None Sample.no_options
      (Sample.at_sd_v1.1, Sample.at_sd_v1.2)
    = (Raise (ExternalError 2%N),
       (Sample.at_sd_v1.1,
        Sample.at_sd_v1.2
        ++ [EvConstruct SD "cpu"
              (mkCtorKwargs Sample.no_options None Sample.broken false None)]))
  ∧ init_model Sample.env "other" "cpu" None Sample.no_options
      (Sample.at_sd_v1.1, Sample.at_sd_v1.2)
    = (Raise (NotImplementedError "other"), (Sample.at_sd_v1.1, Sample.at_sd_v1.2)).
Proof.
  split; [|split; [|split; [|split; [|split]]]].
  - destruct (init_model_dispatch Sample.env Sample.at_sd_v1.1 Sample.at_sd_v1.2 "lama"
                Sample.lama "cpu" None Sample.no_options) as [Hrun _];
      [vm_compute; reflexivity|reflexivity|exact Hrun].
  - destruct (init_model_dispatch Sample.env Sample.at_sdxl_controlnet.1
                Sample.at_sdxl_controlnet.2 "sdxl"
                Sample.sdxl "cpu" None Sample.controlnet_on) as [Hrun _];
      [vm_compute; reflexivity|reflexivity|exact Hrun].
  - destruct (init_model_dispatch Sample.env Sample.at_sd_v1.1 Sample.at_sd_v1.2 "sdxl"
                Sample.sdxl "cpu" None Sample.no_options) as [Hrun _];
      [vm_compute; reflexivity|reflexivity|exact Hrun].
  - destruct (init_model_dispatch Sample.env Sample.at_sd_v1.1 Sample.at_sd_v1.2 "sd-v1"
                Sample.sd_v1 "cpu" None Sample.no_options) as [Hrun _];
      [vm_compute; reflexivity|reflexivity|exact Hrun].
  - destruct (init_model_dispatch Sample.env Sample.at_sd_v1.1 Sample.at_sd_v1.2 "broken"
                Sample.broken "cpu" None Sample.no_options) as [Hrun _];
      [vm_compute; reflexivity|reflexivity|exact Hrun].
  - destruct (init_model_dispatch Sample.env Sample.at_sd_v1.1 Sample.at_sd_v1.2 "other"
                Sample.other "cpu" None Sample.no_options) as [Hrun _];
      [vm_compute; reflexivity|reflexivity|exact Hrun].
Defined.

(** C8 on the sample: enable, disable, enable with other scalars. *)
Lemma tuning_last_write_wins_witness :
  held_freeu
    (run_steps enable_disable_freeu
       [Sample.request false None true false;
        Sample.request false None false false;
        InpaintRequest.mk false None true (FreeUConfig.mk 1 1 1 1) false]
       (Sample.at_sd_v1.1, Sample.at_sd_v1.2)).1
  = Some (Some (FreeUConfig.mk 1 1 1 1)).
Proof.
  destruct (tuning_last_write_wins Sample.at_sd_v1.1 Sample.at_sd_v1.2)
    as (_ & _ & Hlatest & _).
  - exists Sample.sd_v1, (Backend.mk "cpu" None (Sample.fresh_pipeline None) "lcm-lora").
    repeat split; try (vm_compute; reflexivity). discriminate.
  - by apply Hlatest.
Defined.

(** C10 on the sample: "depth" requested together with ControlNet off. *)
Lemma method_change_before_flag_change_witness :
  (switch_controlnet_method Sample.env (Sample.request false (Some "depth") false false)
     (Sample.at_sdxl_controlnet.1, Sample.at_sdxl_controlnet.2)).2.2
  = Sample.at_sdxl_controlnet.2 ++ [EvSwitchMethod (Some "depth")]
  ∧ enable_controlnet
      (switch_controlnet_method Sample.env (Sample.request false (Some "depth") false false)
         (Sample.at_sdxl_controlnet.1, Sample.at_sdxl_controlnet.2)).2.1 = true.
Proof.
  destruct (method_change_before_flag_change Sample.env Sample.at_sdxl_controlnet.1
              Sample.at_sdxl_controlnet.2 Sample.sdxl
              (Backend.mk "cpu" (Some "canny") (Sample.fresh_pipeline None) "lcm-lora")
              (Sample.request false (Some "depth") false false)) as [Hstep _].
  - vm_compute. reflexivity.
  - reflexivity.
  - vm_compute. reflexivity.
  - vm_compute. reflexivity.
  - reflexivity.
  - vm_compute. discriminate.
  - vm_compute. discriminate.
  - rewrite Hstep. split; reflexivity.
Defined.

(** ** The further properties on the sample deployments *)

(** X1 on a scan that lists "sd-v1" twice. *)
Lemma scan_models_catalog_witness :
  dict_by_name Edge.scanned !! "sd-v1" = Some Edge.sd_v1_rescanned
  ∧ is_Some (dict_by_name Edge.scanned !! "lama").
Proof.
  destruct (scan_models_catalog Edge.scanned) as (_ & Hin & Hlast). split.
  - apply (Hlast [Sample.sd_v1; Sample.sdxl; Sample.lama; Edge.unlisted]
             Edge.sd_v1_rescanned []); [reflexivity|constructor].
  - apply (Hin Sample.lama). vm_compute. do 2 right. by left.
Defined.

(** X2: no model "nope". *)
Lemma init_unknown_name_witness :
  __init__ Sample.env "nope" "cpu" Sample.controlnet_on []
  = (Raise (NotImplementedError "nope"), []).
Proof. apply (init_unknown_name Sample.env). vm_compute. reflexivity. Defined.

(** X3: "sdxl" with ControlNet on is built as [ControlNet], on "cpu", with
    the defaulted method "canny". *)
Lemma init_builds_selected_backend_witness :
  ∃ kw, Sample.at_sdxl_controlnet.2 = [EvConstruct ControlNet "cpu" kw]
        ∧ ck_controlnet_method kw = Some "canny".
Proof.
  destruct (init_builds_selected_backend Sample.env "sdxl" "cpu" Sample.controlnet_on []
              Sample.at_sdxl_controlnet.1 Sample.at_sdxl_controlnet.2)
    as (info & cls & b & Hinfo & Hsel & _ & Hlog & _).
  - vm_compute. reflexivity.
  - vm_compute in Hinfo. injection Hinfo as <-.
    vm_compute in Hsel. injection Hsel as <-.
    eexists. split; [exact Hlog|]. vm_compute. reflexivity.
Defined.

(** X4: "sd-v1" to "sdxl". *)
Lemma switch_installs_new_backend_witness :
  ∃ b log_B,
    switch Sample.env "sdxl" (Sample.at_sd_v1.1, Sample.at_sd_v1.2)
    = (Ok tt, (set_model (Some b)
                 (set_controlnet_method
                    (method_on_switch Sample.sdxl (controlnet_method Sample.at_sd_v1.1))
                    (set_name "sdxl" Sample.at_sd_v1.1)), log_B))
    ∧ method_on_switch Sample.sdxl (controlnet_method Sample.at_sd_v1.1) = Some "canny".
Proof.
  eexists _, _. split; [|vm_compute; reflexivity].
  eapply (switch_installs_new_backend Sample.env _ _ "sdxl" Sample.sdxl).
  - vm_compute. discriminate.
  - vm_compute. reflexivity.
  - intros _. discriminate.
  - vm_compute. reflexivity.
  - vm_compute. reflexivity.
Defined.

(** X5: on the machine that fits one backend only, the switch strands the
    manager. *)
Lemma switch_rollback_fails_witness :
  ∃ log_A,
    switch Edge.env "sd-v1" (Edge.at_sdxl.1, Edge.at_sdxl.2)
    = (Raise (ExternalError 1), (set_model None Edge.at_sdxl.1, log_A)).
Proof.
  eexists.
  eapply (switch_rollback_fails Edge.env _ _ "sd-v1" Edge.sd_v1_rescanned).
  - vm_compute. discriminate.
  - vm_compute. reflexivity.
  - intros H. discriminate H.
  - vm_compute. reflexivity.
  - vm_compute. reflexivity.
  - vm_compute. reflexivity.
Defined.

(** X6: the stranded manager cannot be switched to "lama". *)
Lemma switch_without_backend_witness :
  ∃ log_A,
    switch Edge.env "lama" (Edge.stranded.1, Edge.stranded.2)
    = (Raise (ExternalError 1), (Edge.stranded.1, log_A)).
Proof.
  eexists.
  apply (switch_without_backend Edge.env Edge.stranded.1 Edge.stranded.2 "lama"
           Sample.lama (Raise (ExternalError 1))).
  - vm_compute. discriminate.
  - vm_compute. reflexivity.
  - intros H. discriminate H.
  - vm_compute. reflexivity.
  - vm_compute. reflexivity.
Defined.

(** X7: "unlisted" supports ControlNet and lists no method. *)
Lemma switch_empty_method_list_witness :
  switch Edge.env "unlisted" (Edge.at_sdxl.1, Edge.at_sdxl.2)
  = (Raise IndexError, (set_name "unlisted" Edge.at_sdxl.1, Edge.at_sdxl.2)).
Proof.
  apply (switch_empty_method_list Edge.env _ _ _ Edge.unlisted).
  - vm_compute. discriminate.
  - vm_compute. reflexivity.
  - reflexivity.
  - reflexivity.
Defined.

(** X8 on the rollback of the sample. *)
Lemma switch_frame_witness :
  enable_controlnet (switch Sample.env "broken" Sample.at_sd_v1).2.1 = false
  ∧ available_models (switch Sample.env "broken" Sample.at_sd_v1).2.1
    = available_models Sample.at_sd_v1.1.
Proof.
  destruct (switch_frame Sample.env Sample.at_sd_v1.1 Sample.at_sd_v1.2 "broken"
              (switch Sample.env "broken" Sample.at_sd_v1).1
              (switch Sample.env "broken" Sample.at_sd_v1).2)
    as (Ha & _ & _ & He & _).
  - vm_compute. reflexivity.
  - split; [exact He|exact Ha].
Defined.

(** X9: ControlNet turned on for "sdxl". *)
Lemma controlnet_flag_flip_witness :
  ∃ b' log',
    switch_controlnet_method Sample.env (Sample.request true (Some "depth") false false)
      (Sample.at_sdxl.1, Sample.at_sdxl.2)
    = (Ok tt, (set_model (Some b')
                 (set_controlnet_method (Some "depth")
                    (set_enable_controlnet true Sample.at_sdxl.1)), log'))
    ∧ Pipeline.unet (Backend.model b') = 3%N.
Proof.
  eexists _, _. split.
  - apply (controlnet_flag_flip Sample.env Sample.at_sdxl.1 Sample.at_sdxl.2 Sample.sdxl
             (Backend.mk "cpu" (Some "canny") (Sample.fresh_pipeline None) "lcm-lora")
             (Sample.request true (Some "depth") false false) (Ok _)).
    + vm_compute. reflexivity.
    + reflexivity.
    + vm_compute. reflexivity.
    + vm_compute. reflexivity.
    + vm_compute. discriminate.
    + vm_compute. reflexivity.
  - reflexivity.
Defined.

(** X10: on the machine that fits one backend only, ControlNet cannot be
    turned on; asking again changes nothing. *)
Lemma controlnet_failed_flip_not_retried_witness :
  let config := Sample.request true (Some "depth") false false in
  let s' := (switch_controlnet_method Edge.env config Edge.at_sdxl).2 in
  enable_controlnet s'.1 = true
  ∧ switch_controlnet_method Edge.env config s' = (Ok tt, s').
Proof.
  intros config s'.
  destruct (controlnet_failed_flip_not_retried Edge.env Edge.at_sdxl.1 Edge.at_sdxl.2
              Sample.sdxl
              (Backend.mk "cpu" (Some "canny") (Sample.fresh_pipeline None) "lcm-lora")
              config (ExternalError 1) s') as (_ & He & Hnoop).
  - vm_compute. reflexivity.
  - reflexivity.
  - vm_compute. reflexivity.
  - vm_compute. reflexivity.
  - vm_compute. discriminate.
  - vm_compute. reflexivity.
  - split; [exact He|exact Hnoop].
Defined.

(** X12: "depth" requested together with ControlNet off, twice. *)
Lemma controlnet_flag_change_deferred_witness :
  let config := Sample.request false (Some "depth") false false in
  let s1 := (switch_controlnet_method Sample.env config
               (Sample.at_sdxl_controlnet.1, Sample.at_sdxl_controlnet.2)).2 in
  ∃ s2, switch_controlnet_method Sample.env config s1 = (Ok tt, s2)
        ∧ enable_controlnet s1.1 = true
        ∧ enable_controlnet s2.1 = false.
Proof.
  intros config s1. subst s1. eexists.
  rewrite (controlnet_flag_change_deferred Sample.env Sample.at_sdxl_controlnet.1
             Sample.at_sdxl_controlnet.2 Sample.sdxl
             (Backend.mk "cpu" (Some "canny") (Sample.fresh_pipeline None) "lcm-lora")
             config
             (Ok (Backend.mk "cpu" (Some "depth")
                    (Sample.fresh_pipeline (Some (mkPipeComponents 1%N 2%N 3%N None)))
                    "lcm-lora"))
             (Sample.at_sdxl_controlnet.2 ++ [EvSwitchMethod (Some "depth")]
              ++ [EvConstruct SDXL "cpu"
                    (mkCtorKwargs Sample.controlnet_on
                       (Some (mkPipeComponents 1%N 2%N 3%N None)) Sample.sdxl false
                       (Some "depth"))])).
  - split; [reflexivity|]. split; vm_compute; reflexivity.
  - vm_compute. reflexivity.
  - reflexivity.
  - vm_compute. reflexivity.
  - vm_compute. reflexivity.
  - reflexivity.
  - vm_compute. discriminate.
  - reflexivity.
  - vm_compute. reflexivity.
Defined.

(** X13: the stranded manager cannot serve, under its own name or after a
    switch to an unknown one. *)
Lemma call_without_backend_witness :
  (__call__ Edge.env [1]%Z [255]%Z (Sample.request false None true true)
     (Edge.stranded.1, Edge.stranded.2)).1
  = Raise (AttributeError "model")
  ∧ (__call__ Edge.env [1]%Z [255]%Z (Sample.request false None true true)
       ((switch Edge.env "nope" Edge.stranded).2.1,
        (switch Edge.env "nope" Edge.stranded).2.2)).1
    = Raise (KeyError "nope").
Proof.
  split.
  - destruct (call_without_backend Edge.env [1]%Z [255]%Z
                (Sample.request false None true true)
                Edge.stranded.1 Edge.stranded.2) as (m' & Hrun & _).
    + vm_compute. reflexivity.
    + rewrite Hrun. vm_compute. reflexivity.
  - destruct (call_without_backend Edge.env [1]%Z [255]%Z
                (Sample.request false None true true)
                (switch Edge.env "nope" Edge.stranded).2.1
                (switch Edge.env "nope" Edge.stranded).2.2) as (m' & Hrun & _).
    + vm_compute. reflexivity.
    + rewrite Hrun. vm_compute. reflexivity.
Defined.

(** X14 on a call that rebuilds the backend. *)
Lemma call_keeps_backend_witness :
  is_Some (model (__call__ Sample.env [1]%Z [255]%Z
                    (Sample.request true (Some "depth") true true)
                    (Sample.at_sdxl.1, Sample.at_sdxl.2)).2.1).
Proof.
  eapply (call_keeps_backend Sample.env [1]%Z [255]%Z
            (Sample.request true (Some "depth") true true)
            Sample.at_sdxl.1 Sample.at_sdxl.2 _ _).
  - vm_compute. by eexists.
  - apply surjective_pairing.
Defined.

(** X16: enable, then disable, where loads return; where the first load
    fails, one request leaves the adapter unloaded and a second one loads
    it. *)
Lemma adapter_last_write_wins_witness :
  held_lora
    (run_steps (enable_disable_lcm_lora Sample.env)
       [Sample.request false None false true; Sample.request false None false false]
       (Sample.at_sd_v1.1, Sample.at_sd_v1.2)).1
  = Some (["lcm-lora"], false)
  ∧ held_lora
      (run_steps (enable_disable_lcm_lora Flaky.env)
         [Sample.request false None false true]
         (Flaky.at_sd_v1.1, Flaky.at_sd_v1.2)).1
    = Some ([], false)
  ∧ held_lora
      (run_steps (enable_disable_lcm_lora Flaky.env)
         [Sample.request false None false true; Sample.request false None false true]
         (Flaky.at_sd_v1.1, Flaky.at_sd_v1.2)).1
    = Some (["lcm-lora"], true).
Proof.
  split; [|split].
  - destruct (adapter_last_write_wins Sample.env Sample.at_sd_v1.1 Sample.at_sd_v1.2
                Sample.sd_v1
                (Backend.mk "cpu" None (Sample.fresh_pipeline None) "lcm-lora")
                [Sample.request false None false true;
                 Sample.request false None false false]) as [_ Hreturns].
    + vm_compute. reflexivity.
    + reflexivity.
    + vm_compute. reflexivity.
    + reflexivity.
    + exact (Hreturns eq_refl).
  - destruct (adapter_last_write_wins Flaky.env Flaky.at_sd_v1.1 Flaky.at_sd_v1.2
                Sample.sd_v1
                (Backend.mk "cpu" None (Sample.fresh_pipeline None) "lcm-lora")
                [Sample.request false None false true]) as [Hfinal _].
    + vm_compute. reflexivity.
    + reflexivity.
    + vm_compute. reflexivity.
    + reflexivity.
    + exact Hfinal.
  - destruct (adapter_last_write_wins Flaky.env Flaky.at_sd_v1.1 Flaky.at_sd_v1.2
                Sample.sd_v1
                (Backend.mk "cpu" None (Sample.fresh_pipeline None) "lcm-lora")
                [Sample.request false None false true;
                 Sample.request false None false true]) as [Hfinal _].
    + vm_compute. reflexivity.
    + reflexivity.
    + vm_compute. reflexivity.
    + reflexivity.
    + exact Hfinal.
Defined.

(** X17: on "mps" nothing is tuned. *)
Lemma tuning_step_calls_witness :
  let s := match __init__ Sample.env "sd-v1" "mps" Sample.no_options [] with
           | (Ok self, log) => (self, log)
           | (Raise _, log) => (Sample.at_sd_v1.1, log)
           end in
  enable_disable_freeu (Sample.request false None true false) (s.1, s.2)
  = (Ok tt, (s.1, s.2)).
Proof.
  intros s.
  apply (tuning_step_calls s.1 s.2 Sample.sd_v1
           (Backend.mk "mps" None (Sample.fresh_pipeline None) "lcm-lora")
           (Sample.request false None true false)).
  - vm_compute. reflexivity.
  - vm_compute. reflexivity.
  - reflexivity.
Defined.

(** X18: "depth" requested while ControlNet is off on both sides. *)
Lemma controlnet_step_noop_iff_witness :
  switch_controlnet_method Sample.env (Sample.request false (Some "depth") false false)
    (Sample.at_sdxl.1, Sample.at_sdxl.2)
  = (Ok tt, (Sample.at_sdxl.1, Sample.at_sdxl.2)).
Proof.
  apply (controlnet_step_noop_iff Sample.env Sample.at_sdxl.1 Sample.at_sdxl.2 Sample.sdxl
           (Backend.mk "cpu" (Some "canny") (Sample.fresh_pipeline None) "lcm-lora")
           (Sample.request false (Some "depth") false false)).
  - vm_compute. reflexivity.
  - vm_compute. reflexivity.
  - right. split; [vm_compute; reflexivity|]. left. vm_compute. reflexivity.
Defined.
